(** * noxfile.py: the nox sessions of python-bigtable

    A shallow embedding of [noxfile.py].  The file is glue code: every
    session is a short sequence of calls on the nox [session] object
    ([install], [run], [skip], [posargs]), guarded by reads of
    [os.environ] and [os.path.exists], and, for the documentation
    sessions, one [shutil.rmtree].  The sessions are embedded in a small
    reader/state/exception monad over

    - a [host]: the process environment, the positional arguments of the
      nox invocation, an oracle for what each spawned external process
      does (its exit status and its effect on the file system), and an
      oracle for what a directory removal cannot delete;
    - a [state]: the file system (the set of existing paths) and the log
      of the calls made so far, in order.

    The library calls ([session.*], [os.*], [shutil.rmtree], the way nox
    runs a session function and registers it) are modelled after the
    documented behaviour of nox and of the Python standard library on a
    POSIX host. *)

From Stdlib Require Import ZArith String Ascii List Lia.
From stdpp Require Import base gmap strings list.

Open Scope string_scope.
Open Scope Z_scope.
Open Scope list_scope.

(** ** The host and the state of a session run *)

(** The two ways a session spawns an external process. *)
Inductive call :=
| Pip (args : list string)               (* session.install *)
| Cmd (args : list string).              (* session.run *)

(** Python exceptions a session function can leave with. *)
Inductive exn :=
| SessionSkip (reason : string)          (* nox.sessions._SessionSkip *)
| CommandFailed (c : call)               (* nox.command.CommandFailed *)
| OSError (path : string).               (* FileNotFoundError and the like *)

(** One entry of the log: a spawned process, with the paths that existed
    when it was started and its exit status, or a call of
    [shutil.rmtree]. *)
Inductive event :=
| Spawn (c : call) (before : gset string) (status : Z)
| Rmtree (path : string) (ignore_errors : bool).

Record host := Host {
  environ : gmap string string;          (* os.environ *)
  posargs : list string;                 (* session.posargs *)
  (* the [n]-th logged action being the process [c], started on the
     files [fs]: its exit status and the files it leaves behind *)
  spawn : nat -> call -> gset string -> Z * gset string;
  (* the [n]-th logged action being [shutil.rmtree] on [path] and the
     files [fs]: the entries at or below [path] that it cannot delete,
     [path] itself when it is a regular file or a symbolic link, and
     whatever the process has no permission to remove *)
  undeletable : nat -> string -> gset string -> gset string
}.

Record state := State {
  fs : gset string;
  log : list event
}.

Definition M (A : Type) : Type := host -> state -> (exn + A) * state.

Definition ret {A} (a : A) : M A := fun _ s => (inr a, s).

Definition bind {A B} (m : M A) (k : A -> M B) : M B :=
  fun h s =>
    match m h s with
    | (inr a, s') => k a h s'
    | (inl e, s') => (inl e, s')
    end.

Definition raise {A} (e : exn) : M A := fun _ s => (inl e, s).

#[global] Instance M_ret : MRet M := @ret.
#[global] Instance M_bind : MBind M := fun A B k m => bind m k.

(** [if c: body] with no [else]. *)
Definition when (c : bool) (body : M unit) : M unit :=
  if c then body else mret tt.

(** [for x in xs: body]. *)
Fixpoint for_each {A} (xs : list A) (body : A -> M unit) : M unit :=
  match xs with
  | [] => mret tt
  | x :: xs' => body x ;; for_each xs' body
  end.

(** ** Library calls *)

Definition startswith (s pre : string) : bool := String.prefix pre s.

Definition endswith (s suf : string) : bool :=
  let n := String.length s in
  let k := String.length suf in
  (k <=? n)%nat && String.eqb (String.substring (n - k) k s) suf.

(** [posixpath.join], the first component and the list of the others. *)
Fixpoint join_from (path : string) (p : list string) : string :=
  match p with
  | [] => path
  | b :: p' =>
      if startswith b "/" then join_from b p'
      else if String.eqb path "" || endswith path "/"
           then join_from (path +:+ b) p'
           else join_from (path +:+ "/" +:+ b) p'
  end.

Definition os_path_join (a : string) (p : list string) : string :=
  join_from a p.

(** [os.environ.get(key, default)]. *)
Definition os_environ_get (key dflt : string) : M string :=
  fun h s => (inr (default dflt (environ h !! key)), s).

(** [os.path.exists(path)]: true for a file and for a directory alike. *)
Definition os_path_exists (path : string) : M bool :=
  fun _ s => (inr (bool_decide (path ∈ fs s)), s).

(** [path] is [root] itself or lies below it. *)
Definition inside (root path : string) : bool :=
  String.eqb path root || startswith path (root +:+ "/").

(** [shutil.rmtree(path, ignore_errors)]: the entries at or below [path]
    are removed, except the ones the host says cannot be deleted; nothing
    outside the tree is touched.  With [ignore_errors] every error is
    swallowed, so the call returns whether [path] was missing, was a
    regular file or a symbolic link (and stays), or could only be emptied
    in part.  Without it the call raises unless [path] existed and is
    gone afterwards. *)
Definition shutil_rmtree (path : string) (ignore_errors : bool) : M unit :=
  fun h s =>
    let kept := undeletable h (length (log s)) path (fs s) in
    let s' := {| fs := filter (fun p => inside path p = false \/ p ∈ kept) (fs s);
                 log := log s ++ [Rmtree path ignore_errors] |} in
    if ignore_errors
       || (bool_decide (path ∈ fs s) && negb (bool_decide (path ∈ fs s')))
    then (inr tt, s')
    else (inl (OSError path), s').

(** A spawned process: the oracle of the host gives its exit status and
    the files it leaves; a status other than 0 raises [CommandFailed]
    (no [success_codes] is ever passed in this file). *)
Definition run_process (c : call) : M unit :=
  fun h s =>
    let '(status, fs') := spawn h (length (log s)) c (fs s) in
    let s' := {| fs := fs'; log := log s ++ [Spawn c (fs s) status] |} in
    if status =? 0 then (inr tt, s') else (inl (CommandFailed c), s').

(** [session.install], on its starred arguments. *)
Definition session_install (args : list string) : M unit :=
  run_process (Pip args).

(** [session.run], on its starred arguments. *)
Definition session_run (args : list string) : M unit :=
  run_process (Cmd args).

(** [session.skip(reason)]: raises, so nothing after it is executed. *)
Definition session_skip (reason : string) : M unit :=
  raise (SessionSkip reason).

(** [session.posargs]. *)
Definition session_posargs : M (list string) :=
  fun h s => (inr (posargs h), s).

(** ** noxfile.py *)

Definition DEFAULT_PYTHON_VERSION : string := "3.8".
Definition SYSTEM_TEST_PYTHON_VERSIONS : list string := ["2.7"; "3.8"].
Definition UNIT_TEST_PYTHON_VERSIONS : list string :=
  ["2.7"; "3.5"; "3.6"; "3.7"; "3.8"].
Definition LOCAL_DEPS : list string := [].

Definition GOOGLE_APPLICATION_CREDENTIALS : string :=
  "GOOGLE_APPLICATION_CREDENTIALS".

Definition lint : M unit :=
  session_install (["flake8"; "black"] ++ LOCAL_DEPS) ;;
  session_run ["black"; "--check"; "google"; "tests"; "docs"] ;;
  session_run ["flake8"; "google"; "tests"].

Definition blacken : M unit :=
  session_install ["black"] ;;
  session_run ["black"; "google"; "tests"; "docs"].

Definition lint_setup_py : M unit :=
  session_install ["docutils"; "pygments"] ;;
  session_run ["python"; "setup.py"; "check"; "--restructuredtext"; "--strict"].

Definition default_ : M unit :=
  session_install ["mock"; "pytest"; "pytest-cov"] ;;
  for_each LOCAL_DEPS (fun local_dep => session_install ["-e"; local_dep]) ;;
  session_install ["-e"; "."] ;;
  args ← session_posargs;
  session_run
    (["py.test";
      "--quiet";
      "--cov=google.cloud";
      "--cov=tests.unit";
      "--cov-append";
      "--cov-config=.coveragerc";
      "--cov-report=";
      "--cov-fail-under=0";
      os_path_join "tests" ["unit"]] ++ args).

(* [default] and [unit] are taken in Rocq: the two functions carry a
   trailing underscore. *)
Definition unit_ : M unit := default_.

Definition cover : M unit :=
  session_install ["coverage"; "pytest-cov"] ;;
  session_run ["coverage"; "report"; "--show-missing"; "--fail-under=99"] ;;
  session_run ["coverage"; "erase"].

Definition system : M unit :=
  let system_test_path := os_path_join "tests" ["system.py"] in
  let system_test_folder_path := os_path_join "tests" ["system"] in
  cred ← os_environ_get GOOGLE_APPLICATION_CREDENTIALS "";
  when (String.eqb cred "")
    (session_skip "Credentials must be set via environment variable") ;;
  system_test_exists ← os_path_exists system_test_path;
  system_test_folder_exists ← os_path_exists system_test_folder_path;
  when (negb system_test_exists && negb system_test_folder_exists)
    (session_skip "System tests were not found") ;;
  session_install ["--pre"; "grpcio"] ;;
  session_install ["mock"; "pytest"] ;;
  for_each LOCAL_DEPS (fun local_dep => session_install ["-e"; local_dep]) ;;
  session_install ["-e"; "test_utils/"] ;;
  session_install ["-e"; "."] ;;
  args ← session_posargs;
  when system_test_exists
    (session_run (["py.test"; "--quiet"; system_test_path] ++ args)) ;;
  when system_test_folder_exists
    (session_run (["py.test"; "--quiet"; system_test_folder_path] ++ args)).

Definition snippets : M unit :=
  cred ← os_environ_get GOOGLE_APPLICATION_CREDENTIALS "";
  when (String.eqb cred "")
    (session_skip "Credentials must be set via environment variable.") ;;
  session_install ["mock"; "pytest"] ;;
  for_each LOCAL_DEPS (fun local_dep => session_install ["-e"; local_dep]) ;;
  session_install ["-e"; "test_utils/"] ;;
  session_install ["-e"; "."] ;;
  args ← session_posargs;
  session_run
    (["py.test"; "--quiet"; os_path_join "docs" ["snippets.py"]] ++ args) ;;
  session_run
    (["py.test"; "--quiet"; os_path_join "docs" ["snippets_table.py"]] ++ args).

Definition docs : M unit :=
  session_install ["-e"; "."] ;;
  session_install ["sphinx"; "alabaster"; "recommonmark"] ;;
  shutil_rmtree (os_path_join "docs" ["_build"]) true ;;
  session_run
    ["sphinx-build";
     "-W";
     "-T";
     "-N";
     "-b";
     "html";
     "-d";
     os_path_join "docs" ["_build"; "doctrees"; ""];
     os_path_join "docs" [""];
     os_path_join "docs" ["_build"; "html"; ""]].

Definition docfx : M unit :=
  session_install ["-e"; "."] ;;
  session_install ["sphinx"; "alabaster"; "recommonmark"; "sphinx-docfx-yaml"] ;;
  shutil_rmtree (os_path_join "docs" ["_build"]) true ;;
  session_run
    ["sphinx-build";
     "-T";
     "-N";
     "-D";
     "extensions=sphinx.ext.autodoc," +:+
     "sphinx.ext.autosummary," +:+
     "docfx_yaml.extension," +:+
     "sphinx.ext.intersphinx," +:+
     "sphinx.ext.coverage," +:+
     "sphinx.ext.napoleon," +:+
     "sphinx.ext.todo," +:+
     "sphinx.ext.viewcode," +:+
     "recommonmark";
     "-b";
     "html";
     "-d";
     os_path_join "docs" ["_build"; "doctrees"; ""];
     os_path_join "docs" [""];
     os_path_join "docs" ["_build"; "html"; ""]].

(** ** The module as nox sees it *)

(** A top-level [def], with the [python] argument of its [@nox.session]
    decorator when it has one. *)
Record toplevel := Toplevel {
  def_name : string;
  nox_session : option (list string);
  def_body : M unit
}.

Definition module_defs : list toplevel :=
  [ Toplevel "lint" (Some [DEFAULT_PYTHON_VERSION]) lint;
    Toplevel "blacken" (Some ["3.6"]) blacken;
    Toplevel "lint_setup_py" (Some [DEFAULT_PYTHON_VERSION]) lint_setup_py;
    Toplevel "default" None default_;
    Toplevel "unit" (Some UNIT_TEST_PYTHON_VERSIONS) unit_;
    Toplevel "cover" (Some [DEFAULT_PYTHON_VERSION]) cover;
    Toplevel "system" (Some SYSTEM_TEST_PYTHON_VERSIONS) system;
    Toplevel "snippets" (Some SYSTEM_TEST_PYTHON_VERSIONS) snippets;
    Toplevel "docs" (Some [DEFAULT_PYTHON_VERSION]) docs;
    Toplevel "docfx" (Some [DEFAULT_PYTHON_VERSION]) docfx ].

(** [@nox.session(python=...)] adds the function to the registry under
    its own name; an undecorated [def] adds nothing. *)
Definition register (reg : list (string * M unit)) (d : toplevel)
  : list (string * M unit) :=
  match nox_session d with
  | Some _ => reg ++ [(def_name d, def_body d)]
  | None => reg
  end.

Definition registry : list (string * M unit) :=
  fold_left register module_defs [].

(** How nox reports a session. *)
Inductive status := SUCCESS | SKIPPED | FAILED.

(** nox runs the session function and turns the way it ends into a
    status: a skip is not a failure, any other exception is. *)
Definition status_of (r : exn + unit) : status :=
  match r with
  | inr _ => SUCCESS
  | inl (SessionSkip _) => SKIPPED
  | inl _ => FAILED
  end.

Definition execute (func : M unit) (h : host) (files : gset string)
  : status * list event :=
  let '(r, s) := func h {| fs := files; log := [] |} in
  (status_of r, log s).

(** ** Vocabulary of the properties *)

(** What the credential guard of [system] and [snippets] reads. *)
Definition credentials (h : host) : string :=
  default "" (environ h !! GOOGLE_APPLICATION_CREDENTIALS).

Definition is_install (e : event) : bool :=
  match e with Spawn (Pip _) _ _ => true | _ => false end.

Definition is_run (e : event) : bool :=
  match e with Spawn (Cmd _) _ _ => true | _ => false end.

(** The argument lists of the [session.run] calls of a log, in order. *)
Definition runs (l : list event) : list (list string) :=
  omap (fun e => match e with Spawn (Cmd a) _ _ => Some a | _ => None end) l.

(** The argument lists of the [session.install] calls of a log, in order. *)
Definition installs (l : list event) : list (list string) :=
  omap (fun e => match e with Spawn (Pip a) _ _ => Some a | _ => None end) l.

(** The event is a process that exited with a status other than 0. *)
Definition exited_nonzero (e : event) : Prop :=
  match e with Spawn _ _ st => st <> 0 | Rmtree _ _ => False end.

(** No process of the log exited with a status other than 0. *)
Definition all_succeeded (l : list event) : Prop :=
  Forall (fun e => ~ exited_nonzero e) l.

(** Every [session.install] of the log comes before every
    [session.run] of the log. *)
Definition installs_before_runs (l : list event) : Prop :=
  forall (i j : nat) (a b : event),
    l !! i = Some a -> l !! j = Some b ->
    is_install a = true -> is_run b = true -> (i < j)%nat.

(** The state a process leaves and the event it adds to the log. *)
Definition spawned (c : call) (h : host) (s : state) : event :=
  Spawn c (fs s) (spawn h (length (log s)) c (fs s)).1.

Definition after_process (c : call) (h : host) (s : state) : state :=
  {| fs := (spawn h (length (log s)) c (fs s)).2;
     log := log s ++ [spawned c h s] |}.

Definition after_rmtree (path : string) (h : host) (s : state) : state :=
  {| fs := filter (fun p => inside path p = false
                            \/ p ∈ undeletable h (length (log s)) path (fs s))
                  (fs s);
     log := log s ++ [Rmtree path true] |}.

(** *** Straight-line scripts

    Past its guards a session is a fixed sequence of processes and
    directory removals, each started only if the one before it did not
    raise.  [script] is that sequence as a computation; the sessions are
    proved equal to their scripts below. *)

Inductive step :=
| Do (c : call)
| Clear (path : string).

Definition perform (st : step) : M unit :=
  match st with
  | Do c => run_process c
  | Clear path => shutil_rmtree path true
  end.

Fixpoint script (steps : list step) : M unit :=
  match steps with
  | [] => mret tt
  | st :: rest => perform st ;; script rest
  end.

(** The step an event of the log is the record of. *)
Definition step_of (e : event) : step :=
  match e with
  | Spawn c _ _ => Do c
  | Rmtree path _ => Clear path
  end.

Definition step_is_install (st : step) : bool :=
  match st with Do (Pip _) => true | _ => false end.

Definition step_is_run (st : step) : bool :=
  match st with Do (Cmd _) => true | _ => false end.

(** No [session.install] among the steps. *)
Definition no_install (steps : list step) : bool :=
  forallb (fun st => negb (step_is_install st)) steps.

(** The steps are installs, then steps none of which is an install. *)
Fixpoint installs_first (steps : list step) : bool :=
  match steps with
  | [] => true
  | st :: rest =>
      if step_is_install st then installs_first rest
      else no_install (st :: rest)
  end.

(** The py.test command line of [system] and [snippets] on a target. *)
Definition pytest (target : string) (args : list string) : list string :=
  ["py.test"; "--quiet"; target] ++ args.

(** What [system] does once both its guards are passed. *)
Definition system_steps (file_exists folder_exists : bool)
    (args : list string) : list step :=
  [ Do (Pip ["--pre"; "grpcio"]);
    Do (Pip ["mock"; "pytest"]);
    Do (Pip ["-e"; "test_utils/"]);
    Do (Pip ["-e"; "."]) ]
  ++ (if file_exists then [Do (Cmd (pytest "tests/system.py" args))] else [])
  ++ (if folder_exists then [Do (Cmd (pytest "tests/system" args))] else []).

(** The py.test runs of [system] when nothing fails: the file if it
    exists, then the directory if it exists. *)
Definition system_targets (file_exists folder_exists : bool)
    (args : list string) : list (list string) :=
  (if file_exists then [pytest "tests/system.py" args] else [])
  ++ (if folder_exists then [pytest "tests/system" args] else []).

Definition snippets_steps (args : list string) : list step :=
  [ Do (Pip ["mock"; "pytest"]);
    Do (Pip ["-e"; "test_utils/"]);
    Do (Pip ["-e"; "."]);
    Do (Cmd (pytest "docs/snippets.py" args));
    Do (Cmd (pytest "docs/snippets_table.py" args)) ].

Definition unit_command (args : list string) : list string :=
  ["py.test"; "--quiet"; "--cov=google.cloud"; "--cov=tests.unit";
   "--cov-append"; "--cov-config=.coveragerc"; "--cov-report=";
   "--cov-fail-under=0"; "tests/unit"] ++ args.

Definition sphinx_html : list string :=
  ["sphinx-build"; "-W"; "-T"; "-N"; "-b"; "html"; "-d";
   "docs/_build/doctrees/"; "docs/"; "docs/_build/html/"].

Definition sphinx_docfx : list string :=
  ["sphinx-build"; "-T"; "-N"; "-D";
   "extensions=sphinx.ext.autodoc,sphinx.ext.autosummary,docfx_yaml.extension,sphinx.ext.intersphinx,sphinx.ext.coverage,sphinx.ext.napoleon,sphinx.ext.todo,sphinx.ext.viewcode,recommonmark";
   "-b"; "html"; "-d";
   "docs/_build/doctrees/"; "docs/"; "docs/_build/html/"].

(** [ran steps d r]: running [steps] in order added the events [d] to
    the log and ended with [r].  Either every step was performed and no
    process failed, or the steps were performed up to the first process
    that exited with a status other than 0, which is the last event. *)
Inductive ran (steps : list step) : list event -> exn + unit -> Prop :=
| ran_all d :
    map step_of d = steps ->
    all_succeeded d ->
    ran steps d (inr tt)
| ran_until d0 c before st rest :
    steps = map step_of d0 ++ Do c :: rest ->
    all_succeeded d0 ->
    st <> 0 ->
    ran steps (d0 ++ [Spawn c before st]) (inl (CommandFailed c)).

(** The [session.run] and [session.install] argument lists of a list of
    steps. *)
Definition step_runs (steps : list step) : list (list string) :=
  omap (fun st => match st with Do (Cmd a) => Some a | _ => None end) steps.

Definition step_installs (steps : list step) : list (list string) :=
  omap (fun st => match st with Do (Pip a) => Some a | _ => None end) steps.

(** What nox reports of a session that is skipped at once or is a
    script whose installs come first and are the list [deps]. *)
Inductive behaviour (deps : list (list string)) : status * list event -> Prop :=
| skipped_at_once :
    behaviour deps (SKIPPED, [])
| ran_script steps d r :
    installs_first steps = true ->
    step_installs steps = deps ->
    ran steps d r ->
    behaviour deps (status_of r, d).

(** The [session.install] calls of each session, in order. *)
Definition declared_installs (name : string) : list (list string) :=
  if String.eqb name "lint" then [["flake8"; "black"]]
  else if String.eqb name "blacken" then [["black"]]
  else if String.eqb name "lint_setup_py" then [["docutils"; "pygments"]]
  else if String.eqb name "unit" then
    [["mock"; "pytest"; "pytest-cov"]; ["-e"; "."]]
  else if String.eqb name "cover" then [["coverage"; "pytest-cov"]]
  else if String.eqb name "system" then
    [["--pre"; "grpcio"]; ["mock"; "pytest"]; ["-e"; "test_utils/"]; ["-e"; "."]]
  else if String.eqb name "snippets" then
    [["mock"; "pytest"]; ["-e"; "test_utils/"]; ["-e"; "."]]
  else if String.eqb name "docs" then
    [["-e"; "."]; ["sphinx"; "alabaster"; "recommonmark"]]
  else if String.eqb name "docfx" then
    [["-e"; "."]; ["sphinx"; "alabaster"; "recommonmark"; "sphinx-docfx-yaml"]]
  else [].

(** Every [session.run] of the log is the command [cmd], the entry just
    before it is the removal of the tree [root] with errors ignored, and
    no path at or below [root] existed when the command was started. *)
Definition cleared_before_build (root : string) (cmd : list string)
    (l : list event) : Prop :=
  forall (j : nat) (e : event),
    l !! j = Some e -> is_run e = true ->
    exists before st,
      e = Spawn (Cmd cmd) before st
      /\ (exists i, j = S i /\ l !! i = Some (Rmtree root true))
      /\ (forall q : string, inside root q = true -> q ∉ before).

(** A run that nox reports as failed has a process that exited with a
    status other than 0. *)
Definition fails_by_process_only (res : status * list event) : Prop :=
  res.1 = FAILED -> exists i e, res.2 !! i = Some e /\ exited_nonzero e.

(** *** Two statements that the sessions do not meet as they stand *)

(** py.test is run on each of the two system targets exactly when it
    exists, and on both, file first, when both exist. *)
Definition system_runs_claim (h : host) (files : gset string) : Prop :=
  credentials h <> "" ->
  "tests/system.py" ∈ files \/ "tests/system" ∈ files ->
  (In (pytest "tests/system.py" (posargs h)) (runs (execute system h files).2)
   <-> "tests/system.py" ∈ files)
  /\ (In (pytest "tests/system" (posargs h)) (runs (execute system h files).2)
      <-> "tests/system" ∈ files)
  /\ ("tests/system.py" ∈ files -> "tests/system" ∈ files ->
      runs (execute system h files).2
      = [pytest "tests/system.py" (posargs h); pytest "tests/system" (posargs h)]).

(** The snippets session runs py.test on a snippet file only when the
    file exists. *)
Definition snippets_targets_claim (h : host) (files : gset string) : Prop :=
  forall p : string,
    In p ["docs/snippets.py"; "docs/snippets_table.py"] ->
    In (pytest p (posargs h)) (runs (execute snippets h files).2) ->
    p ∈ files.

(** *** Hosts to run the sessions on *)

(** A host whose processes all exit with status 0 and leave the files as
    they found them, and on which every tree can be removed (as on the
    two hosts after it). *)
Definition quiet_host (env : gmap string string) (args : list string) : host :=
  {| environ := env; posargs := args; spawn := fun _ _ files => (0, files);
     undeletable := fun _ _ _ => ∅ |}.

(** A host on which py.test exits with status 4 when one of its
    arguments that is not an option names no existing path, and every
    other process exits with status 0. *)
Definition strict_host (env : gmap string string) (args : list string) : host :=
  {| environ := env; posargs := args;
     spawn := fun _ c files =>
       match c with
       | Cmd ("py.test" :: a) =>
           if forallb (fun x => startswith x "-" || bool_decide (x ∈ files)) a
           then (0, files) else (4, files)
       | _ => (0, files)
       end;
     undeletable := fun _ _ _ => ∅ |}.

(** A host on which the tests fail: py.test exits with status 1, every
    other process with status 0. *)
Definition red_host (env : gmap string string) (args : list string) : host :=
  {| environ := env; posargs := args;
     spawn := fun _ c files =>
       match c with
       | Cmd ("py.test" :: _) => (1, files)
       | _ => (0, files)
       end;
     undeletable := fun _ _ _ => ∅ |}.

Definition with_credentials : gmap string string :=
  {[ GOOGLE_APPLICATION_CREDENTIALS := "/secrets/key.json" ]}.

Definition with_empty_credentials : gmap string string :=
  {[ GOOGLE_APPLICATION_CREDENTIALS := "" ]}.

(** *** The sessions without a guard, step by step *)

Definition lint_steps : list step :=
  [ Do (Pip ["flake8"; "black"]);
    Do (Cmd ["black"; "--check"; "google"; "tests"; "docs"]);
    Do (Cmd ["flake8"; "google"; "tests"]) ].

Definition blacken_steps : list step :=
  [ Do (Pip ["black"]);
    Do (Cmd ["black"; "google"; "tests"; "docs"]) ].

Definition lint_setup_py_steps : list step :=
  [ Do (Pip ["docutils"; "pygments"]);
    Do (Cmd ["python"; "setup.py"; "check"; "--restructuredtext"; "--strict"]) ].

Definition unit_steps (args : list string) : list step :=
  [ Do (Pip ["mock"; "pytest"; "pytest-cov"]);
    Do (Pip ["-e"; "."]);
    Do (Cmd (unit_command args)) ].

Definition coverage_report : list string :=
  ["coverage"; "report"; "--show-missing"; "--fail-under=99"].

Definition coverage_erase : list string := ["coverage"; "erase"].

Definition cover_steps : list step :=
  [ Do (Pip ["coverage"; "pytest-cov"]);
    Do (Cmd coverage_report);
    Do (Cmd coverage_erase) ].

Definition docs_steps : list step :=
  [ Do (Pip ["-e"; "."]);
    Do (Pip ["sphinx"; "alabaster"; "recommonmark"]);
    Clear "docs/_build";
    Do (Cmd sphinx_html) ].

Definition docfx_steps : list step :=
  [ Do (Pip ["-e"; "."]);
    Do (Pip ["sphinx"; "alabaster"; "recommonmark"; "sphinx-docfx-yaml"]);
    Clear "docs/_build";
    Do (Cmd sphinx_docfx) ].

(** What nox reports of a run that goes through [steps] in order and
    stops at the first process that exits with a status other than 0:
    the log is a beginning of [steps], only its last entry can be a
    failed process, the run succeeds exactly when every step was
    performed and no process failed, fails exactly when a process
    failed, and is never skipped. *)
Definition follows (steps : list step) (res : status * list event) : Prop :=
  map step_of res.2 `prefix_of` steps
  /\ all_succeeded (removelast res.2)
  /\ (res.1 = SUCCESS <-> map step_of res.2 = steps /\ all_succeeded res.2)
  /\ (res.1 = FAILED <-> ~ all_succeeded res.2)
  /\ res.1 <> SKIPPED.

Definition step_is_clear (st : step) : bool :=
  match st with Clear _ => true | Do _ => false end.

Definition is_rmtree (e : event) : bool :=
  match e with Rmtree _ _ => true | Spawn _ _ _ => false end.

(** What nox reports of the session registered as [name]: it is one of
    the two guarded sessions and was skipped at once, or it ran a script
    that makes the installs of the session, runs at least one command
    and removes a directory only in the two documentation sessions. *)
Inductive outcome_of (name : string) : status * list event -> Prop :=
| outcome_skipped :
    name = "system" \/ name = "snippets" ->
    outcome_of name (SKIPPED, [])
| outcome_ran steps d r :
    step_installs steps = declared_installs name ->
    step_runs steps <> [] ->
    (existsb step_is_clear steps = true -> name = "docs" \/ name = "docfx") ->
    ran steps d r ->
    outcome_of name (status_of r, d).

(** In a log of an install followed by the commands [first] and
    [second]: [second] is run only after the install and [first] have
    exited with status 0, and not at all when [first] exits otherwise. *)
Definition runs_after_passing (dep first second : list string)
    (l : list event) : Prop :=
  (In second (runs l) ->
   exists before0 before1,
     l !! 0%nat = Some (Spawn (Pip dep) before0 0)
     /\ l !! 1%nat = Some (Spawn (Cmd first) before1 0))
  /\ (forall before st,
        l !! 1%nat = Some (Spawn (Cmd first) before st) -> st <> 0 ->
        ~ In second (runs l)).


(** Every [session.run] of the log is the command [cmd], fourth in the
    log and right after the removal of [root] with errors ignored; and
    what exists at or below [root] when the command starts is what the
    removal could not delete of the files that the second entry, a
    process, left behind. *)
Definition removed_before_build (root : string) (cmd : list string)
    (h : host) (l : list event) : Prop :=
  forall (j : nat) (e : event),
    l !! j = Some e -> is_run e = true ->
    exists c1 before1 st1 before st,
      j = 3%nat
      /\ e = Spawn (Cmd cmd) before st
      /\ l !! 1%nat = Some (Spawn c1 before1 st1)
      /\ l !! 2%nat = Some (Rmtree root true)
      /\ (forall q : string,
            inside root q = true ->
            (q ∈ before
             <-> q ∈ (spawn h 1 c1 before1).2
                 /\ q ∈ undeletable h 2 root (spawn h 1 c1 before1).2)).

(** On the host the tree [root] can always be removed in full: it is
    missing, or a directory that can be emptied. *)
Definition can_remove (root : string) (h : host) : Prop :=
  forall (n : nat) (files : gset string), undeletable h n root files = ∅.

(** A host on which the path given to [shutil.rmtree] is a symbolic link
    to a directory: the call refuses it, so the link and what is seen
    through it stay.  Every process exits with status 0 and leaves the
    files as they are. *)
Definition linked_host : host :=
  {| environ := ∅; posargs := [];
     spawn := fun _ _ files => (0, files);
     undeletable := fun _ path files => filter (fun p => inside path p = true) files |}.

(** Two logs hold the same call, argument for argument, at every
    position they both have. *)
Definition same_calls (l1 l2 : list event) : Prop :=
  forall (i : nat) (e1 e2 : event),
    l1 !! i = Some e1 -> l2 !! i = Some e2 -> step_of e1 = step_of e2.

(** *** Paths on the command lines *)

Definition arguments (c : call) : list string :=
  match c with Pip a => a | Cmd a => a end.

Fixpoint has_slash (s : string) : bool :=
  match s with
  | EmptyString => false
  | String c s' => Ascii.eqb c "/" || has_slash s'
  end.

(** An argument that reads as a relative path: it is not an option, and
    it is [.] or holds a separator. *)
Definition path_like (a : string) : bool :=
  negb (startswith a "-") && (String.eqb a "." || has_slash a).

(** The fixed relative paths that the specification lists: the five test
    and snippet paths and what lies at or below docs/_build. *)
Definition listed_path (p : string) : bool :=
  existsb (String.eqb p)
    ["tests/unit"; "tests/system.py"; "tests/system";
     "docs/snippets.py"; "docs/snippets_table.py"]
  || inside "docs/_build" p.

(** Every argument of a logged call that reads as a path is a listed
    path, one of [extra], or a positional argument of the invocation. *)
Definition paths_among (extra : list string) (h : host) (l : list event) : Prop :=
  forall c before st a,
    In (Spawn c before st) l -> In a (arguments c) -> path_like a = true ->
    listed_path a = true \/ In a extra \/ In a (posargs h).

(** The session refers to listed paths only. *)
Definition only_listed_paths (h : host) (l : list event) : Prop :=
  paths_among [] h l.

(** * Properties *)

(** ** Stepping through a computation *)

Lemma bind_environ_get {B} key dflt (k : string -> M B) h s :
  (os_environ_get key dflt ≫= k) h s = k (default dflt (environ h !! key)) h s.
Proof. reflexivity. Qed.

Lemma bind_path_exists {B} path (k : bool -> M B) h s :
  (os_path_exists path ≫= k) h s = k (bool_decide (path ∈ fs s)) h s.
Proof. reflexivity. Qed.

Lemma bind_posargs {B} (k : list string -> M B) h s :
  (session_posargs ≫= k) h s = k (posargs h) h s.
Proof. reflexivity. Qed.

Lemma bind_unit_ret (m : M unit) h s : (m ;; mret tt) h s = m h s.
Proof.
  unfold mbind, M_bind, bind, mret, M_ret, ret.
  destruct (m h s) as [[e | []] s']; reflexivity.
Qed.

Lemma bind_ext {A B} (m : M A) (k k' : A -> M B) h s :
  (forall a s', k a h s' = k' a h s') ->
  (m ≫= k) h s = (m ≫= k') h s.
Proof.
  intros Hk. unfold mbind, M_bind, bind.
  destruct (m h s) as [[e | a] s']; [reflexivity | apply Hk].
Qed.

Lemma run_process_eq c h s :
  run_process c h s =
  if (spawn h (length (log s)) c (fs s)).1 =? 0
  then (inr tt, after_process c h s)
  else (inl (CommandFailed c), after_process c h s).
Proof.
  unfold run_process, after_process, spawned.
  destruct (spawn h (length (log s)) c (fs s)) as [st fs']; simpl.
  destruct (st =? 0); reflexivity.
Qed.

Lemma bind_run_process {B} c (k : unit -> M B) h s :
  (run_process c ≫= k) h s =
  if (spawn h (length (log s)) c (fs s)).1 =? 0
  then k tt h (after_process c h s)
  else (inl (CommandFailed c), after_process c h s).
Proof.
  unfold mbind, M_bind, bind. rewrite run_process_eq.
  destruct (_ =? 0); reflexivity.
Qed.

Lemma rmtree_ignoring_eq path h s :
  shutil_rmtree path true h s = (inr tt, after_rmtree path h s).
Proof. reflexivity. Qed.

Lemma bind_rmtree_ignoring {B} path (k : unit -> M B) h s :
  (shutil_rmtree path true ≫= k) h s = k tt h (after_rmtree path h s).
Proof. unfold mbind, M_bind, bind. rewrite rmtree_ignoring_eq. reflexivity. Qed.

(** ** What a script leaves in the log *)

Lemma all_succeeded_cons e d :
  ~ exited_nonzero e -> all_succeeded d -> all_succeeded (e :: d).
Proof. intros He Hd. constructor; assumption. Qed.

Lemma ran_cons e steps d r :
  ~ exited_nonzero e -> ran steps d r -> ran (step_of e :: steps) (e :: d) r.
Proof.
  intros He Hr. destruct Hr as [d Hd Hok | d0 c before st rest Hd Hok Hst].
  - apply ran_all; [simpl; congruence | apply all_succeeded_cons; assumption].
  - change (e :: d0 ++ [Spawn c before st]) with ((e :: d0) ++ [Spawn c before st]).
    apply ran_until with (rest := rest);
      [simpl; congruence | apply all_succeeded_cons; assumption | assumption].
Qed.

Lemma script_ran steps h : forall s,
  exists d, log (script steps h s).2 = log s ++ d /\ ran steps d (script steps h s).1.
Proof.
  induction steps as [| st rest IH]; intros s.
  - exists []. split; [symmetry; apply app_nil_r | apply ran_all; [reflexivity | constructor]].
  - destruct st as [c | path]; cbn [script perform].
    + rewrite bind_run_process.
      destruct (Z.eqb_spec (spawn h (length (log s)) c (fs s)).1 0) as [Hz | Hnz].
      * destruct (IH (after_process c h s)) as (d & Hlog & Hran).
        exists (spawned c h s :: d). split.
        -- rewrite Hlog. cbn [after_process log]. rewrite <- app_assoc. reflexivity.
        -- apply (ran_cons (spawned c h s)); [| exact Hran].
           unfold spawned; simpl. intros Hne; apply Hne, Hz.
      * exists ([] ++ [spawned c h s]). split; [reflexivity |].
        apply ran_until with (rest := rest); [reflexivity | constructor | exact Hnz].
    + rewrite bind_rmtree_ignoring.
      destruct (IH (after_rmtree path h s)) as (d & Hlog & Hran).
      exists (Rmtree path true :: d). split.
      * rewrite Hlog. cbn [after_rmtree log]. rewrite <- app_assoc. reflexivity.
      * apply (ran_cons (Rmtree path true)); [intros [] | exact Hran].
Qed.

Lemma ran_prefix steps d r : ran steps d r -> map step_of d `prefix_of` steps.
Proof.
  intros [d' Hd _ | d0 c before st rest Hd _ _].
  - rewrite Hd. reflexivity.
  - exists rest. rewrite Hd, map_app, <- app_assoc. reflexivity.
Qed.

Lemma ran_success steps d r :
  ran steps d r -> all_succeeded d -> r = inr tt /\ map step_of d = steps.
Proof.
  intros [d' Hd _ | d0 c before st rest _ _ Hst] Hok.
  - split; [reflexivity | exact Hd].
  - exfalso. apply Forall_app in Hok as [_ Hlast].
    apply Forall_cons in Hlast as [Hlast _]. apply Hlast. exact Hst.
Qed.

Lemma ran_failure_last steps d r i e :
  ran steps d r -> d !! i = Some e -> exited_nonzero e ->
  S i = length d /\ exists c, r = inl (CommandFailed c).
Proof.
  intros [d' _ Hok | d0 c before st rest _ Hok _] Hi He.
  - exfalso. eapply Forall_lookup_1 in Hok; [| exact Hi]. exact (Hok He).
  - split; [| exists c; reflexivity].
    rewrite length_app. simpl.
    destruct (decide (i < length d0)%nat) as [Hlt | Hge].
    + exfalso. rewrite lookup_app_l in Hi by exact Hlt.
      eapply Forall_lookup_1 in Hok; [| exact Hi]. exact (Hok He).
    + apply lookup_lt_Some in Hi. rewrite length_app in Hi. simpl in Hi. lia.
Qed.

Lemma runs_step_runs d : runs d = step_runs (map step_of d).
Proof.
  induction d as [| [[a | a] before st | path ie] d IH]; simpl; congruence.
Qed.

Lemma installs_step_installs d : installs d = step_installs (map step_of d).
Proof.
  induction d as [| [[a | a] before st | path ie] d IH]; simpl; congruence.
Qed.

Lemma ran_runs_prefix steps d r : ran steps d r -> runs d `prefix_of` step_runs steps.
Proof.
  intros Hr. apply ran_prefix in Hr as [k ->].
  rewrite runs_step_runs. unfold step_runs. rewrite omap_app.
  apply prefix_app_r. reflexivity.
Qed.

Lemma ran_runs_success steps d r :
  ran steps d r -> all_succeeded d -> runs d = step_runs steps.
Proof.
  intros Hr Hok. destruct (ran_success _ _ _ Hr Hok) as [_ <-].
  apply runs_step_runs.
Qed.

(** *** Installs before runs *)

Lemma is_install_step_of e : step_is_install (step_of e) = is_install e.
Proof. destruct e as [[a | a] before st | path ie]; reflexivity. Qed.

Lemma is_run_step_of e : step_is_run (step_of e) = is_run e.
Proof. destruct e as [[a | a] before st | path ie]; reflexivity. Qed.

Lemma no_install_lookup steps i a :
  no_install steps = true -> steps !! i = Some a -> step_is_install a = false.
Proof.
  unfold no_install. rewrite forallb_forall. intros Hall Hi.
  apply negb_true_iff, Hall, list_elem_of_In, list_elem_of_lookup. eauto.
Qed.

Lemma installs_first_order steps : forall i j a b,
  installs_first steps = true ->
  steps !! i = Some a -> steps !! j = Some b ->
  step_is_install a = true -> step_is_run b = true -> (i < j)%nat.
Proof.
  induction steps as [| st rest IH]; intros i j a b Hf Hi Hj Ha Hb.
  - discriminate.
  - cbn [installs_first] in Hf.
    destruct (step_is_install st) eqn:Hst.
    + destruct j as [| j].
      * simpl in Hj. injection Hj as <-.
        destruct st as [[x | x] | p]; discriminate.
      * destruct i as [| i]; [lia |].
        simpl in Hi, Hj. specialize (IH i j a b Hf Hi Hj Ha Hb). lia.
    + rewrite (no_install_lookup _ _ _ Hf Hi) in Ha. discriminate.
Qed.

Lemma ran_installs_before_runs steps d r :
  installs_first steps = true -> ran steps d r -> installs_before_runs d.
Proof.
  intros Hf Hr i j a b Hi Hj Ha Hb.
  apply ran_prefix in Hr.
  apply (installs_first_order steps i j (step_of a) (step_of b) Hf).
  - eapply prefix_lookup_Some; [| exact Hr]. rewrite list_lookup_fmap, Hi. reflexivity.
  - eapply prefix_lookup_Some; [| exact Hr]. rewrite list_lookup_fmap, Hj. reflexivity.
  - rewrite is_install_step_of. exact Ha.
  - rewrite is_run_step_of. exact Hb.
Qed.

Lemma no_install_step_installs steps :
  no_install steps = true -> step_installs steps = [].
Proof.
  induction steps as [| st rest IH]; [reflexivity |].
  unfold no_install. cbn [forallb]. rewrite andb_true_iff. intros [Hst Hrest].
  destruct st as [[x | x] | p]; try discriminate; simpl; apply IH, Hrest.
Qed.

Lemma step_installs_app l k :
  step_installs (l ++ k) = step_installs l ++ step_installs k.
Proof. apply omap_app. Qed.

Lemma installs_first_rest pre : forall k j b,
  installs_first (pre ++ k) = true ->
  pre !! j = Some b -> step_is_install b = false ->
  step_installs k = [].
Proof.
  induction pre as [| st pre IH]; intros k j b Hf Hj Hb; [discriminate |].
  cbn [app installs_first] in Hf.
  destruct (step_is_install st) eqn:Hst.
  - destruct j as [| j].
    + simpl in Hj. injection Hj as <-. congruence.
    + simpl in Hj. exact (IH k j b Hf Hj Hb).
  - apply no_install_step_installs in Hf.
    change (st :: pre ++ k) with ((st :: pre) ++ k) in Hf.
    rewrite step_installs_app in Hf.
    apply app_eq_nil in Hf as [_ Hk]. exact Hk.
Qed.

(** Once a [session.run] is in the log, every install of the script has
    been made. *)
Lemma ran_installs_complete steps d r j b :
  installs_first steps = true -> ran steps d r ->
  d !! j = Some b -> is_run b = true ->
  installs d = step_installs steps.
Proof.
  intros Hf Hr Hj Hb. apply ran_prefix in Hr as [k ->].
  rewrite installs_step_installs, step_installs_app.
  rewrite (installs_first_rest _ k j (step_of b) Hf).
  - rewrite app_nil_r. reflexivity.
  - rewrite list_lookup_fmap, Hj. reflexivity.
  - rewrite is_install_step_of. destruct b as [[x | x] before st | p ie]; try discriminate; reflexivity.
Qed.

(** ** The sessions as scripts *)

Lemma bind_ret {A B} (a : A) (k : A -> M B) h s : (mret a ≫= k) h s = k a h s.
Proof. reflexivity. Qed.

Ltac script_steps :=
  cbn [script perform];
  repeat (apply bind_ext; intros ? ?);
  first [ reflexivity | symmetry; apply bind_unit_ret ].

Lemma lint_script h s :
  lint h s =
  script [ Do (Pip ["flake8"; "black"]);
           Do (Cmd ["black"; "--check"; "google"; "tests"; "docs"]);
           Do (Cmd ["flake8"; "google"; "tests"]) ] h s.
Proof. unfold lint. script_steps. Qed.

Lemma blacken_script h s :
  blacken h s =
  script [ Do (Pip ["black"]);
           Do (Cmd ["black"; "google"; "tests"; "docs"]) ] h s.
Proof. unfold blacken. script_steps. Qed.

Lemma lint_setup_py_script h s :
  lint_setup_py h s =
  script [ Do (Pip ["docutils"; "pygments"]);
           Do (Cmd ["python"; "setup.py"; "check"; "--restructuredtext"; "--strict"]) ] h s.
Proof. unfold lint_setup_py. script_steps. Qed.

Lemma default_script h s :
  default_ h s =
  script [ Do (Pip ["mock"; "pytest"; "pytest-cov"]);
           Do (Pip ["-e"; "."]);
           Do (Cmd (unit_command (posargs h))) ] h s.
Proof.
  unfold default_. cbn [script perform].
  apply bind_ext; intros ? ?.
  cbn [LOCAL_DEPS for_each]. rewrite bind_ret.
  apply bind_ext; intros ? ?.
  rewrite bind_posargs. symmetry; apply bind_unit_ret.
Qed.

Lemma cover_script h s :
  cover h s =
  script [ Do (Pip ["coverage"; "pytest-cov"]);
           Do (Cmd ["coverage"; "report"; "--show-missing"; "--fail-under=99"]);
           Do (Cmd ["coverage"; "erase"]) ] h s.
Proof. unfold cover. script_steps. Qed.

Lemma docs_script h s :
  docs h s =
  script [ Do (Pip ["-e"; "."]);
           Do (Pip ["sphinx"; "alabaster"; "recommonmark"]);
           Clear "docs/_build";
           Do (Cmd sphinx_html) ] h s.
Proof. unfold docs. script_steps. Qed.

Lemma docfx_script h s :
  docfx h s =
  script [ Do (Pip ["-e"; "."]);
           Do (Pip ["sphinx"; "alabaster"; "recommonmark"; "sphinx-docfx-yaml"]);
           Clear "docs/_build";
           Do (Cmd sphinx_docfx) ] h s.
Proof. unfold docfx. script_steps. Qed.

Lemma system_script h s :
  system h s =
  if String.eqb (credentials h) ""
  then (inl (SessionSkip "Credentials must be set via environment variable"), s)
  else if negb (bool_decide ("tests/system.py" ∈ fs s))
          && negb (bool_decide ("tests/system" ∈ fs s))
  then (inl (SessionSkip "System tests were not found"), s)
  else script (system_steps (bool_decide ("tests/system.py" ∈ fs s))
                            (bool_decide ("tests/system" ∈ fs s))
                            (posargs h)) h s.
Proof.
  unfold system. cbv zeta.
  change (os_path_join "tests" ["system.py"]) with "tests/system.py".
  change (os_path_join "tests" ["system"]) with "tests/system".
  rewrite bind_environ_get. fold (credentials h).
  destruct (String.eqb (credentials h) ""); [reflexivity |].
  cbn [when]. rewrite bind_ret, !bind_path_exists.
  destruct (bool_decide ("tests/system.py" ∈ fs s)),
           (bool_decide ("tests/system" ∈ fs s));
    cbn [negb andb when]; try reflexivity;
    rewrite bind_ret; unfold system_steps; cbn [app script perform];
    do 2 (apply bind_ext; intros ? ?);
    cbn [LOCAL_DEPS for_each]; rewrite bind_ret;
    do 2 (apply bind_ext; intros ? ?);
    rewrite bind_posargs; cbn [when].
  - apply bind_ext; intros ? ?. symmetry; apply bind_unit_ret.
  - rewrite bind_unit_ret. reflexivity.
Qed.

Lemma snippets_script h s :
  snippets h s =
  if String.eqb (credentials h) ""
  then (inl (SessionSkip "Credentials must be set via environment variable."), s)
  else script (snippets_steps (posargs h)) h s.
Proof.
  unfold snippets.
  rewrite bind_environ_get. fold (credentials h).
  destruct (String.eqb (credentials h) ""); [reflexivity |].
  cbn [when]. rewrite bind_ret. unfold snippets_steps. cbn [script perform].
  apply bind_ext; intros ? ?.
  cbn [LOCAL_DEPS for_each]. rewrite bind_ret.
  do 2 (apply bind_ext; intros ? ?).
  rewrite bind_posargs.
  apply bind_ext; intros ? ?. symmetry; apply bind_unit_ret.
Qed.

(** ** What nox reports of each session *)

Lemma execute_eq func h files :
  execute func h files =
  (status_of (func h {| fs := files; log := [] |}).1,
   log (func h {| fs := files; log := [] |}).2).
Proof. unfold execute. destruct (func h _) as [r s]. reflexivity. Qed.

Lemma execute_skip func h files reason :
  func h {| fs := files; log := [] |}
  = (inl (SessionSkip reason), {| fs := files; log := [] |}) ->
  execute func h files = (SKIPPED, []).
Proof. intros H. rewrite execute_eq, H. reflexivity. Qed.

Lemma execute_script func steps h files :
  func h {| fs := files; log := [] |} = script steps h {| fs := files; log := [] |} ->
  exists d r, execute func h files = (status_of r, d) /\ ran steps d r.
Proof.
  intros H. rewrite execute_eq, H.
  destruct (script_ran steps h {| fs := files; log := [] |}) as (d & Hlog & Hran).
  exists d, (script steps h {| fs := files; log := [] |}).1.
  split; [rewrite Hlog; reflexivity | exact Hran].
Qed.

Lemma script_behaviour deps func steps h files :
  installs_first steps = true ->
  step_installs steps = deps ->
  func h {| fs := files; log := [] |} = script steps h {| fs := files; log := [] |} ->
  behaviour deps (execute func h files).
Proof.
  intros Hf Hd H. destruct (execute_script _ _ _ _ H) as (d & r & -> & Hran).
  exact (ran_script deps steps d r Hf Hd Hran).
Qed.

Lemma skip_behaviour deps func h files reason :
  func h {| fs := files; log := [] |}
  = (inl (SessionSkip reason), {| fs := files; log := [] |}) ->
  behaviour deps (execute func h files).
Proof. intros H. rewrite (execute_skip _ _ _ _ H). constructor. Qed.

Lemma system_behaviour h files :
  behaviour (declared_installs "system") (execute system h files).
Proof.
  pose proof (system_script h {| fs := files; log := [] |}) as H.
  destruct (String.eqb (credentials h) ""); [exact (skip_behaviour _ _ _ _ _ H) |].
  destruct (negb _ && negb _); [exact (skip_behaviour _ _ _ _ _ H) |].
  refine (script_behaviour _ _ _ _ _ _ _ H);
    destruct (bool_decide ("tests/system.py" ∈ _)), (bool_decide ("tests/system" ∈ _));
    reflexivity.
Qed.

Lemma snippets_behaviour h files :
  behaviour (declared_installs "snippets") (execute snippets h files).
Proof.
  pose proof (snippets_script h {| fs := files; log := [] |}) as H.
  destruct (String.eqb (credentials h) ""); [exact (skip_behaviour _ _ _ _ _ H) |].
  refine (script_behaviour _ _ _ _ _ _ _ H); reflexivity.
Qed.

Lemma registry_eq :
  registry =
  [ ("lint", lint); ("blacken", blacken); ("lint_setup_py", lint_setup_py);
    ("unit", unit_); ("cover", cover); ("system", system);
    ("snippets", snippets); ("docs", docs); ("docfx", docfx) ].
Proof. reflexivity. Qed.

Lemma registry_behaviour name func h files :
  In (name, func) registry ->
  behaviour (declared_installs name) (execute func h files).
Proof.
  rewrite registry_eq. simpl.
  intros [H | [H | [H | [H | [H | [H | [H | [H | [H | []]]]]]]]]];
    injection H as <- <-.
  - refine (script_behaviour _ _ _ _ _ _ _ (lint_script _ _)); reflexivity.
  - refine (script_behaviour _ _ _ _ _ _ _ (blacken_script _ _)); reflexivity.
  - refine (script_behaviour _ _ _ _ _ _ _ (lint_setup_py_script _ _)); reflexivity.
  - refine (script_behaviour _ _ _ _ _ _ _ (default_script _ _)); reflexivity.
  - refine (script_behaviour _ _ _ _ _ _ _ (cover_script _ _)); reflexivity.
  - apply system_behaviour.
  - apply snippets_behaviour.
  - refine (script_behaviour _ _ _ _ _ _ _ (docs_script _ _)); reflexivity.
  - refine (script_behaviour _ _ _ _ _ _ _ (docfx_script _ _)); reflexivity.
Qed.

(** ** The credential guard *)

Lemma credentials_unset h :
  environ h !! GOOGLE_APPLICATION_CREDENTIALS = None -> credentials h = "".
Proof. unfold credentials. intros ->. reflexivity. Qed.

Lemma credentials_set h c :
  environ h !! GOOGLE_APPLICATION_CREDENTIALS = Some c -> credentials h = c.
Proof. unfold credentials. intros ->. reflexivity. Qed.

Lemma system_without_credentials h s :
  credentials h = "" ->
  system h s =
  (inl (SessionSkip "Credentials must be set via environment variable"), s).
Proof. intros Hc. rewrite system_script, Hc. reflexivity. Qed.

Lemma snippets_without_credentials h s :
  credentials h = "" ->
  snippets h s =
  (inl (SessionSkip "Credentials must be set via environment variable."), s).
Proof. intros Hc. rewrite snippets_script, Hc. reflexivity. Qed.

Lemma eqb_credentials_set h c :
  environ h !! GOOGLE_APPLICATION_CREDENTIALS = Some c -> c <> "" ->
  String.eqb (credentials h) "" = false.
Proof.
  intros Hc Hne. rewrite (credentials_set h c Hc). apply String.eqb_neq, Hne.
Qed.

(** C1: with GOOGLE_APPLICATION_CREDENTIALS unset or empty, the system
    session and the snippets session both end as skipped, not failed,
    and their log is empty: no process was spawned, so py.test was not
    invoked. *)
Theorem skipped_without_credentials (h : host) (files : gset string) :
  environ h !! GOOGLE_APPLICATION_CREDENTIALS = None
  \/ environ h !! GOOGLE_APPLICATION_CREDENTIALS = Some "" ->
  execute system h files = (SKIPPED, [])
  /\ execute snippets h files = (SKIPPED, []).
Proof.
  intros Henv.
  assert (Hc : credentials h = "")
    by (destruct Henv; [apply credentials_unset | apply (credentials_set h "")]; assumption).
  split; eapply execute_skip.
  - apply system_without_credentials, Hc.
  - apply snippets_without_credentials, Hc.
Qed.

Lemma skipped_without_credentials_witness :
  ((∅ : gmap string string) !! GOOGLE_APPLICATION_CREDENTIALS = None
   \/ (∅ : gmap string string) !! GOOGLE_APPLICATION_CREDENTIALS = Some "")
  /\ execute system (quiet_host ∅ []) {[ "tests/system.py" ]} = (SKIPPED, [])
  /\ execute snippets (quiet_host ∅ []) {[ "tests/system.py" ]} = (SKIPPED, []).
Proof.
  split.
  - left. reflexivity.
  - apply (skipped_without_credentials (quiet_host ∅ []) {[ "tests/system.py" ]}).
    left. reflexivity.
Defined.

(** C3: with credentials set, when neither tests/system.py nor
    tests/system exists the system session ends as skipped, through its
    second guard, and its log is empty: nothing was installed and
    py.test was not invoked. *)
Theorem system_skipped_without_tests (h : host) (files : gset string) (c : string) :
  environ h !! GOOGLE_APPLICATION_CREDENTIALS = Some c -> c <> "" ->
  "tests/system.py" ∉ files -> "tests/system" ∉ files ->
  system h {| fs := files; log := [] |}
  = (inl (SessionSkip "System tests were not found"), {| fs := files; log := [] |})
  /\ execute system h files = (SKIPPED, []).
Proof.
  intros Hc Hne Hfile Hdir.
  assert (Hraw : system h {| fs := files; log := [] |}
                 = (inl (SessionSkip "System tests were not found"),
                    {| fs := files; log := [] |})).
  { rewrite system_script, (eqb_credentials_set h c Hc Hne). cbn [fs].
    rewrite !bool_decide_eq_false_2 by assumption. reflexivity. }
  split; [exact Hraw | exact (execute_skip _ _ _ _ Hraw)].
Qed.

Lemma system_skipped_without_tests_witness :
  ("tests/system.py" ∉ ({[ "tests/unit" ]} : gset string))
  /\ ("tests/system" ∉ ({[ "tests/unit" ]} : gset string))
  /\ execute system (quiet_host with_credentials []) {[ "tests/unit" ]} = (SKIPPED, []).
Proof.
  assert (Hfile : "tests/system.py" ∉ ({[ "tests/unit" ]} : gset string))
    by (rewrite elem_of_singleton; discriminate).
  assert (Hdir : "tests/system" ∉ ({[ "tests/unit" ]} : gset string))
    by (rewrite elem_of_singleton; discriminate).
  split; [exact Hfile | split; [exact Hdir |]].
  apply (system_skipped_without_tests
           (quiet_host with_credentials []) {[ "tests/unit" ]} "/secrets/key.json");
    [reflexivity | discriminate | exact Hfile | exact Hdir].
Defined.

(** C10: the credential guard does not tell GOOGLE_APPLICATION_CREDENTIALS
    set to the empty string from the variable being unset.  On two hosts
    that differ only in that, the system session and the snippets
    session end in the same way from any state, and nox reports both
    runs as skipped with an empty log. *)
Theorem empty_credentials_as_unset
    (env1 env2 : gmap string string) (args : list string)
    (sp : nat -> call -> gset string -> Z * gset string)
    (und : nat -> string -> gset string -> gset string)
    (s : state) (files : gset string) :
  env1 !! GOOGLE_APPLICATION_CREDENTIALS = None ->
  env2 !! GOOGLE_APPLICATION_CREDENTIALS = Some "" ->
  system (Host env1 args sp und) s = system (Host env2 args sp und) s
  /\ snippets (Host env1 args sp und) s = snippets (Host env2 args sp und) s
  /\ execute system (Host env1 args sp und) files = (SKIPPED, [])
  /\ execute system (Host env2 args sp und) files = (SKIPPED, [])
  /\ execute snippets (Host env1 args sp und) files = (SKIPPED, [])
  /\ execute snippets (Host env2 args sp und) files = (SKIPPED, []).
Proof.
  intros H1 H2.
  pose proof (credentials_unset (Host env1 args sp und) H1) as Hc1.
  pose proof (credentials_set (Host env2 args sp und) "" H2) as Hc2.
  repeat split.
  - rewrite !system_without_credentials by assumption. reflexivity.
  - rewrite !snippets_without_credentials by assumption. reflexivity.
  - eapply execute_skip. apply system_without_credentials, Hc1.
  - eapply execute_skip. apply system_without_credentials, Hc2.
  - eapply execute_skip. apply snippets_without_credentials, Hc1.
  - eapply execute_skip. apply snippets_without_credentials, Hc2.
Qed.

Lemma empty_credentials_as_unset_witness :
  execute system (quiet_host ∅ ["-x"]) {[ "tests/system.py" ]}
  = execute system (quiet_host with_empty_credentials ["-x"]) {[ "tests/system.py" ]}
  /\ execute snippets (quiet_host ∅ ["-x"]) {[ "tests/system.py" ]}
     = execute snippets (quiet_host with_empty_credentials ["-x"]) {[ "tests/system.py" ]}.
Proof.
  destruct (empty_credentials_as_unset ∅ with_empty_credentials ["-x"]
              (fun _ _ files => (0, files)) (fun _ _ _ => ∅)
              {| fs := {[ "tests/system.py" ]}; log := [] |} {[ "tests/system.py" ]})
    as (_ & _ & Ha & Hb & Hc & Hd); [reflexivity | reflexivity |].
  split.
  - exact (eq_trans Ha (eq_sym Hb)).
  - exact (eq_trans Hc (eq_sym Hd)).
Defined.

(** ** The registered sessions *)

(** C7: the functions registered as nox sessions are exactly lint,
    blacken, lint_setup_py, unit, cover, system, snippets, docs and
    docfx.  The only other top-level function, default, carries no
    decorator and is not registered. *)
Theorem registered_sessions :
  map fst registry
  = ["lint"; "blacken"; "lint_setup_py"; "unit"; "cover"; "system";
     "snippets"; "docs"; "docfx"]
  /\ map def_name (filter (fun d => nox_session d = None) module_defs) = ["default"]
  /\ ~ In "default" (map fst registry)
  /\ NoDup (map fst registry).
Proof.
  split; [reflexivity |]. split; [reflexivity |]. split.
  - rewrite registry_eq. simpl.
    intros [H | [H | [H | [H | [H | [H | [H | [H | [H | []]]]]]]]]]; discriminate.
  - rewrite registry_eq. simpl. apply NoDup_ListNoDup.
    repeat (constructor; [simpl; intros H; repeat destruct H as [H | H]; try discriminate; assumption |]).
    constructor.
Qed.

(** ** Failures of external commands *)

Lemma behaviour_failure deps st l i e :
  behaviour deps (st, l) -> l !! i = Some e -> exited_nonzero e ->
  st = FAILED /\ S i = length l.
Proof.
  intros Hb Hi He. inversion Hb as [| steps d r Hf Hd Hran Hst]; subst.
  - discriminate.
  - destruct (ran_failure_last _ _ _ _ _ Hran Hi He) as [Hlen [c ->]].
    split; [reflexivity | exact Hlen].
Qed.

(** C4: in every registered session, a process started by
    [session.install] or [session.run] that exits with a status other
    than 0 makes nox report the session as failed, and it is the last
    entry of the log: nothing is run after it, so the failure is neither
    caught, retried nor suppressed. *)
Theorem command_failure_fails_session
    (name : string) (func : M unit) (h : host) (files : gset string)
    (i : nat) (e : event) :
  In (name, func) registry ->
  (execute func h files).2 !! i = Some e ->
  exited_nonzero e ->
  (execute func h files).1 = FAILED
  /\ S i = length (execute func h files).2.
Proof.
  intros Hreg Hi He.
  pose proof (registry_behaviour name func h files Hreg) as Hb.
  destruct (execute func h files) as [st l].
  exact (behaviour_failure _ st l i e Hb Hi He).
Qed.

Lemma command_failure_fails_session_witness :
  (execute system (red_host with_credentials []) {[ "tests/system.py"; "tests/system" ]}).1
  = FAILED
  /\ 5%nat = length (execute system (red_host with_credentials [])
                       {[ "tests/system.py"; "tests/system" ]}).2.
Proof.
  apply (command_failure_fails_session "system" system
           (red_host with_credentials []) {[ "tests/system.py"; "tests/system" ]} 4
           (Spawn (Cmd (pytest "tests/system.py" []))
                  {[ "tests/system.py"; "tests/system" ]} 1)).
  - rewrite registry_eq. simpl. tauto.
  - vm_compute. reflexivity.
  - simpl. discriminate.
Defined.

(** ** Installs come first *)

Lemma behaviour_order deps st l :
  behaviour deps (st, l) -> installs_before_runs l.
Proof.
  intros Hb. inversion Hb as [| steps d r Hf Hd Hran Hst]; subst.
  - intros i j a b Hi. discriminate.
  - exact (ran_installs_before_runs _ _ _ Hf Hran).
Qed.

Lemma behaviour_installs deps st l j b :
  behaviour deps (st, l) -> l !! j = Some b -> is_run b = true ->
  installs l = deps.
Proof.
  intros Hb Hj Hrun. inversion Hb as [| steps d r Hf Hd Hran Hst]; subst.
  - discriminate.
  - exact (ran_installs_complete _ _ _ _ _ Hf Hran Hj Hrun).
Qed.

(** C5: in every registered session each [session.install] of the log
    comes before each [session.run] of the log; and once a
    [session.run] is in the log, the installs made are the whole
    dependency list of the session. *)
Theorem installs_precede_runs
    (name : string) (func : M unit) (h : host) (files : gset string) :
  In (name, func) registry ->
  installs_before_runs (execute func h files).2
  /\ (forall (j : nat) (b : event),
        (execute func h files).2 !! j = Some b -> is_run b = true ->
        installs (execute func h files).2 = declared_installs name).
Proof.
  intros Hreg.
  pose proof (registry_behaviour name func h files Hreg) as Hb.
  destruct (execute func h files) as [st l]. split.
  - exact (behaviour_order _ st l Hb).
  - intros j b Hj Hrun. exact (behaviour_installs _ st l j b Hb Hj Hrun).
Qed.

Lemma installs_precede_runs_witness :
  installs_before_runs (execute docs (quiet_host ∅ []) ∅).2
  /\ installs (execute docs (quiet_host ∅ []) ∅).2
     = [["-e"; "."]; ["sphinx"; "alabaster"; "recommonmark"]].
Proof.
  destruct (installs_precede_runs "docs" docs (quiet_host ∅ []) ∅) as [Horder Hall].
  - rewrite registry_eq. simpl. tauto.
  - split; [exact Horder |].
    apply (Hall 3%nat (Spawn (Cmd sphinx_html) ∅ 0)); reflexivity.
Defined.

(** ** Beginnings of lists *)

Lemma Forall_prefix {A} (P : A -> Prop) (l k : list A) :
  l `prefix_of` k -> Forall P k -> Forall P l.
Proof. intros [t ->] H. apply Forall_app in H as [H _]. exact H. Qed.

(** ** The targets of the test sessions *)

Lemma ran_reaches steps d r n st :
  ran steps d r -> steps !! n = Some st -> all_succeeded (take n d) ->
  exists e, d !! n = Some e /\ step_of e = st.
Proof.
  intros Hran Hn Hok.
  assert (Hlt : (n < length d)%nat).
  { destruct Hran as [d Hd _ | d0 c before x rest Hd _ Hx].
    - apply lookup_lt_Some in Hn. rewrite <- Hd, length_map in Hn. exact Hn.
    - destruct (decide (n < length (d0 ++ [Spawn c before x]))%nat) as [Hlt | Hge];
        [exact Hlt | exfalso].
      rewrite take_ge in Hok by lia.
      apply Forall_app in Hok as [_ Hlast].
      apply Forall_cons in Hlast as [Hlast _]. exact (Hlast Hx). }
  destruct (lookup_lt_is_Some_2 d n Hlt) as [e He].
  exists e. split; [exact He |].
  apply ran_prefix in Hran.
  assert (Hs : steps !! n = Some (step_of e)).
  { eapply prefix_lookup_Some; [| exact Hran]. rewrite list_lookup_fmap, He. reflexivity. }
  congruence.
Qed.

Lemma ran_reaches_run steps d r n a :
  ran steps d r -> steps !! n = Some (Do (Cmd a)) -> all_succeeded (take n d) ->
  exists before st, d !! n = Some (Spawn (Cmd a) before st).
Proof.
  intros Hran Hn Hok.
  destruct (ran_reaches _ _ _ _ _ Hran Hn Hok) as ([c before st | p ie] & He & Hs);
    [| discriminate].
  injection Hs as ->. exists before, st. exact He.
Qed.

Lemma step_runs_system_steps e1 e2 args :
  step_runs (system_steps e1 e2 args) = system_targets e1 e2 args.
Proof. destruct e1, e2; reflexivity. Qed.

Lemma system_found h files :
  credentials h <> "" ->
  "tests/system.py" ∈ files \/ "tests/system" ∈ files ->
  exists d r,
    execute system h files = (status_of r, d)
    /\ ran (system_steps (bool_decide ("tests/system.py" ∈ files))
                         (bool_decide ("tests/system" ∈ files)) (posargs h)) d r.
Proof.
  intros Hc Hfound. apply execute_script.
  rewrite system_script. cbn [fs].
  apply String.eqb_neq in Hc. rewrite Hc.
  destruct Hfound as [Hf | Hf]; rewrite (bool_decide_eq_true_2 _ Hf);
    [| rewrite andb_false_r]; reflexivity.
Qed.

Lemma in_system_targets p e1 e2 args :
  In (pytest p args) (system_targets e1 e2 args) ->
  (p = "tests/system.py" /\ e1 = true) \/ (p = "tests/system" /\ e2 = true).
Proof.
  unfold system_targets, pytest.
  destruct e1, e2; simpl; intros H;
    repeat destruct H as [H | H]; try contradiction;
    injection H as <-; auto.
Qed.

Lemma in_prefix {A} (x : A) (l k : list A) : l `prefix_of` k -> In x l -> In x k.
Proof. intros [t ->] H. apply in_or_app. left. exact H. Qed.

Lemma system_runs_exist h files p :
  In (pytest p (posargs h)) (runs (execute system h files).2) -> p ∈ files.
Proof.
  pose proof (system_script h {| fs := files; log := [] |}) as H.
  destruct (String.eqb (credentials h) "");
    [rewrite (execute_skip _ _ _ _ H); intros [] |].
  destruct (negb _ && negb _);
    [rewrite (execute_skip _ _ _ _ H); intros [] |].
  destruct (execute_script _ _ _ _ H) as (d & r & -> & Hran). cbn [snd fs] in *.
  intros Hin. apply (in_prefix _ _ _ (ran_runs_prefix _ _ _ Hran)) in Hin.
  rewrite step_runs_system_steps in Hin.
  apply in_system_targets in Hin as [[-> He] | [-> He]];
    apply bool_decide_eq_true in He; exact He.
Qed.

(** C8, amended: in the system session with credentials set and tests
    found, py.test is invoked only on targets that existed when the
    session started, tests/system.py before tests/system; and when no
    process of the session exits with a status other than 0, the
    session succeeds and py.test is invoked on tests/system.py exactly
    if that file exists and on tests/system exactly if that directory
    exists: on both, the file first and the directory second, when both
    exist. *)
Theorem system_runs (h : host) (files : gset string) (c : string) :
  environ h !! GOOGLE_APPLICATION_CREDENTIALS = Some c -> c <> "" ->
  "tests/system.py" ∈ files \/ "tests/system" ∈ files ->
  runs (execute system h files).2
    `prefix_of` system_targets (bool_decide ("tests/system.py" ∈ files))
                               (bool_decide ("tests/system" ∈ files)) (posargs h)
  /\ (In (pytest "tests/system.py" (posargs h)) (runs (execute system h files).2) ->
      "tests/system.py" ∈ files)
  /\ (In (pytest "tests/system" (posargs h)) (runs (execute system h files).2) ->
      "tests/system" ∈ files)
  /\ (all_succeeded (execute system h files).2 ->
      (execute system h files).1 = SUCCESS
      /\ runs (execute system h files).2
         = system_targets (bool_decide ("tests/system.py" ∈ files))
                          (bool_decide ("tests/system" ∈ files)) (posargs h))
  /\ (all_succeeded (execute system h files).2 ->
      "tests/system.py" ∈ files -> "tests/system" ∈ files ->
      runs (execute system h files).2
      = [pytest "tests/system.py" (posargs h); pytest "tests/system" (posargs h)]).
Proof.
  intros Hcred Hne Hfound.
  assert (Hc : credentials h <> "") by (rewrite (credentials_set h c Hcred); exact Hne).
  split; [| split; [apply system_runs_exist | split; [apply system_runs_exist |]]].
  - destruct (system_found h files Hc Hfound) as (d & r & -> & Hran). cbn [snd].
    rewrite <- step_runs_system_steps. exact (ran_runs_prefix _ _ _ Hran).
  - destruct (system_found h files Hc Hfound) as (d & r & -> & Hran). cbn [fst snd].
    assert (Hall : all_succeeded d ->
                   status_of r = SUCCESS
                   /\ runs d = system_targets (bool_decide ("tests/system.py" ∈ files))
                                 (bool_decide ("tests/system" ∈ files)) (posargs h)).
    { intros Hok. split.
      - destruct (ran_success _ _ _ Hran Hok) as [-> _]. reflexivity.
      - rewrite (ran_runs_success _ _ _ Hran Hok). apply step_runs_system_steps. }
    split; [exact Hall |].
    intros Hok Hfile Hdir. destruct (Hall Hok) as [_ ->].
    rewrite !bool_decide_eq_true_2 by assumption. reflexivity.
Qed.

Lemma system_runs_witness :
  runs (execute system (quiet_host with_credentials ["-x"])
          {[ "tests/system.py"; "tests/system" ]}).2
  = [pytest "tests/system.py" ["-x"]; pytest "tests/system" ["-x"]].
Proof.
  destruct (system_runs (quiet_host with_credentials ["-x"])
              {[ "tests/system.py"; "tests/system" ]} "/secrets/key.json")
    as (_ & _ & _ & _ & Hboth).
  - reflexivity.
  - discriminate.
  - left. set_solver.
  - apply Hboth.
    + vm_compute. repeat (constructor; [intros H; apply H; reflexivity |]). constructor.
    + set_solver.
    + set_solver.
Defined.

(** C8 as stated fails on a host where the tests of tests/system.py
    fail: py.test exits with status 1 on the file, the session stops
    there, and py.test is never invoked on tests/system, which exists. *)
Lemma system_stops_at_first_failure :
  credentials (red_host with_credentials []) <> ""
  /\ execute system (red_host with_credentials []) {[ "tests/system.py"; "tests/system" ]}
     = (FAILED,
        [ Spawn (Pip ["--pre"; "grpcio"]) {[ "tests/system.py"; "tests/system" ]} 0;
          Spawn (Pip ["mock"; "pytest"]) {[ "tests/system.py"; "tests/system" ]} 0;
          Spawn (Pip ["-e"; "test_utils/"]) {[ "tests/system.py"; "tests/system" ]} 0;
          Spawn (Pip ["-e"; "."]) {[ "tests/system.py"; "tests/system" ]} 0;
          Spawn (Cmd ["py.test"; "--quiet"; "tests/system.py"])
                {[ "tests/system.py"; "tests/system" ]} 1 ])
  /\ ~ system_runs_claim (red_host with_credentials [])
         {[ "tests/system.py"; "tests/system" ]}.
Proof.
  split; [discriminate |]. split; [vm_compute; reflexivity |].
  intros Hclaim.
  destruct Hclaim as (_ & [_ Hdir] & _); [discriminate | left; set_solver |].
  assert (Hin : In (pytest "tests/system" [])
                  (runs (execute system (red_host with_credentials [])
                           {[ "tests/system.py"; "tests/system" ]}).2))
    by (apply Hdir; set_solver).
  vm_compute in Hin. destruct Hin as [Hin | []]. discriminate.
Qed.

(** C2 as stated fails on a host with credentials and without the
    snippet files: once the installs are done the snippets session
    invokes py.test on docs/snippets.py, which does not exist; py.test
    exits with status 4 and the session fails. *)
Lemma snippets_run_without_files :
  execute snippets (strict_host with_credentials []) ∅
  = (FAILED,
     [ Spawn (Pip ["mock"; "pytest"]) ∅ 0;
       Spawn (Pip ["-e"; "test_utils/"]) ∅ 0;
       Spawn (Pip ["-e"; "."]) ∅ 0;
       Spawn (Cmd ["py.test"; "--quiet"; "docs/snippets.py"]) ∅ 4 ])
  /\ ~ snippets_targets_claim (strict_host with_credentials []) ∅.
Proof.
  split; [vm_compute; reflexivity |].
  intros Hclaim.
  assert (Hin : "docs/snippets.py" ∈ (∅ : gset string)).
  { apply Hclaim; [left; reflexivity |]. vm_compute. left. reflexivity. }
  set_solver.
Qed.

(** C2, amended: only the system session looks for its targets.  It
    invokes py.test on no path that did not exist when it started.  The
    snippets session, with credentials set, invokes py.test on
    docs/snippets.py as soon as its three installs have exited with
    status 0, and on docs/snippets_table.py as soon as that first run
    has too, whatever files exist; the unit session does the same with
    tests/unit after its two installs. *)
Theorem targets_checked_by_system_only (h : host) (files : gset string) :
  (forall p : string,
     In (pytest p (posargs h)) (runs (execute system h files).2) -> p ∈ files)
  /\ (credentials h <> "" ->
      all_succeeded (take 3 (execute snippets h files).2) ->
      exists before st,
        (execute snippets h files).2 !! 3%nat
        = Some (Spawn (Cmd (pytest "docs/snippets.py" (posargs h))) before st))
  /\ (credentials h <> "" ->
      all_succeeded (take 4 (execute snippets h files).2) ->
      exists before st,
        (execute snippets h files).2 !! 4%nat
        = Some (Spawn (Cmd (pytest "docs/snippets_table.py" (posargs h))) before st))
  /\ (all_succeeded (take 2 (execute unit_ h files).2) ->
      exists before st,
        (execute unit_ h files).2 !! 2%nat
        = Some (Spawn (Cmd (unit_command (posargs h))) before st)).
Proof.
  split; [intros p; apply system_runs_exist |].
  assert (Hsn : credentials h <> "" ->
                exists d r, execute snippets h files = (status_of r, d)
                            /\ ran (snippets_steps (posargs h)) d r).
  { intros Hc. apply execute_script. rewrite snippets_script.
    apply String.eqb_neq in Hc. rewrite Hc. reflexivity. }
  split; [| split].
  - intros Hc. destruct (Hsn Hc) as (d & r & -> & Hran). cbn [snd].
    apply (ran_reaches_run _ _ _ _ _ Hran). reflexivity.
  - intros Hc. destruct (Hsn Hc) as (d & r & -> & Hran). cbn [snd].
    apply (ran_reaches_run _ _ _ _ _ Hran). reflexivity.
  - unfold unit_.
    destruct (execute_script _ _ _ _ (default_script h {| fs := files; log := [] |}))
      as (d & r & -> & Hran). cbn [snd].
    apply (ran_reaches_run _ _ _ _ _ Hran). reflexivity.
Qed.

Lemma targets_checked_by_system_only_witness :
  exists before st,
    (execute snippets (strict_host with_credentials []) ∅).2 !! 3%nat
    = Some (Spawn (Cmd (pytest "docs/snippets.py" [])) before st).
Proof.
  destruct (targets_checked_by_system_only (strict_host with_credentials []) ∅)
    as (_ & Hsnippets & _).
  apply Hsnippets.
  - discriminate.
  - vm_compute. repeat (constructor; [intros H; apply H; reflexivity |]). constructor.
Defined.

(** ** The documentation builds *)

Lemma build_script_removed a b root cmd h files :
  removed_before_build root cmd h
    (execute (script [Do (Pip a); Do (Pip b); Clear root; Do (Cmd cmd)]) h files).2.
Proof.
  rewrite execute_eq. cbn [snd script perform].
  set (s0 := {| fs := files; log := [] |}).
  rewrite bind_run_process.
  destruct (_ =? 0).
  2:{ intros [| j] e Hj Hrun; [| discriminate].
      injection Hj as <-. discriminate. }
  set (s1 := after_process (Pip a) h s0).
  rewrite bind_run_process.
  destruct (_ =? 0).
  2:{ intros [| [| j]] e Hj Hrun; [| | discriminate];
        injection Hj as <-; discriminate. }
  set (s2 := after_process (Pip b) h s1).
  rewrite bind_rmtree_ignoring, bind_unit_ret, run_process_eq.
  set (s3 := after_rmtree root h s2).
  assert (Hlog : log (after_process (Cmd cmd) h s3)
                 = [spawned (Pip a) h s0; spawned (Pip b) h s1;
                    Rmtree root true; spawned (Cmd cmd) h s3]) by reflexivity.
  assert (Hgoal : removed_before_build root cmd h (log (after_process (Cmd cmd) h s3))).
  { rewrite Hlog. intros [| [| [| [| j]]]] e Hj Hrun; try discriminate;
      injection Hj as <-; try discriminate.
    exists (Pip b), (fs s1), (spawn h (length (log s1)) (Pip b) (fs s1)).1,
           (fs s3), (spawn h (length (log s3)) (Cmd cmd) (fs s3)).1.
    split; [reflexivity |]. split; [reflexivity |].
    split; [reflexivity |]. split; [reflexivity |].
    intros q Hq. cbn [s3 after_rmtree fs]. rewrite elem_of_filter.
    change (fs s2) with (spawn h 1 (Pip b) (fs s1)).2.
    change (length (log s2)) with 2%nat.
    split; [intros [[Hout | Hkept] Hin]; [congruence | split; assumption]
           | intros [Hin Hkept]; split; [right |]; assumption]. }
  destruct (_ =? 0); exact Hgoal.
Qed.

Lemma removed_ext root cmd func steps h files :
  func h {| fs := files; log := [] |} = script steps h {| fs := files; log := [] |} ->
  removed_before_build root cmd h (execute (script steps) h files).2 ->
  removed_before_build root cmd h (execute func h files).2.
Proof. intros H. rewrite !execute_eq, H. auto. Qed.

Lemma removed_cleared root cmd h l :
  can_remove root h -> removed_before_build root cmd h l ->
  cleared_before_build root cmd l.
Proof.
  intros Hcan Hrem j e Hj Hrun.
  destruct (Hrem j e Hj Hrun) as (c1 & before1 & st1 & before & st & -> & -> & _ & H2 & Hin).
  exists before, st. split; [reflexivity |].
  split; [exists 2%nat; split; [reflexivity | exact H2] |].
  intros q Hq Hbefore. apply (Hin q Hq) in Hbefore as [_ Hkept].
  rewrite Hcan in Hkept. exact (not_elem_of_empty q Hkept).
Qed.

Lemma script_fails_by_process_only func steps h files :
  func h {| fs := files; log := [] |} = script steps h {| fs := files; log := [] |} ->
  fails_by_process_only (execute func h files).
Proof.
  intros H. destruct (execute_script _ _ _ _ H) as (d & r & -> & Hran).
  unfold fails_by_process_only. cbn [fst snd].
  destruct Hran as [d _ _ | d0 c before st rest _ _ Hst]; [discriminate |].
  intros _. exists (length d0), (Spawn c before st). split; [| exact Hst].
  rewrite lookup_app_r, Nat.sub_diag by lia. reflexivity.
Qed.

Lemma script_reaches_build func a b root cmd h files :
  func h {| fs := files; log := [] |}
  = script [Do (Pip a); Do (Pip b); Clear root; Do (Cmd cmd)] h {| fs := files; log := [] |} ->
  all_succeeded (take 2 (execute func h files).2) ->
  exists before st,
    (execute func h files).2 !! 3%nat = Some (Spawn (Cmd cmd) before st).
Proof.
  intros H. destruct (execute_script _ _ _ _ H) as (d & r & -> & Hran). cbn [snd].
  intros Hok.
  destruct (ran_reaches _ _ _ 2 (Clear root) Hran eq_refl Hok) as (e & He & Hstep).
  apply (ran_reaches_run _ _ _ 3 cmd Hran eq_refl).
  rewrite (take_S_r _ _ _ He). apply Forall_app. split; [exact Hok |].
  constructor; [| constructor].
  destruct e as [c before st | p ie]; [discriminate | intros []].
Qed.

(** C9 as stated fails when docs/_build is a symbolic link to a
    directory that holds an earlier build: [shutil.rmtree] refuses the
    link, the error is ignored, and sphinx-build starts with docs/_build
    and the stale page below it still there. *)
Lemma build_over_a_link :
  execute docs linked_host
    {[ "docs/index.rst"; "docs/_build"; "docs/_build/html/index.html" ]}
  = (SUCCESS,
     [ Spawn (Pip ["-e"; "."])
         {[ "docs/index.rst"; "docs/_build"; "docs/_build/html/index.html" ]} 0;
       Spawn (Pip ["sphinx"; "alabaster"; "recommonmark"])
         {[ "docs/index.rst"; "docs/_build"; "docs/_build/html/index.html" ]} 0;
       Rmtree "docs/_build" true;
       Spawn (Cmd sphinx_html)
         {[ "docs/index.rst"; "docs/_build"; "docs/_build/html/index.html" ]} 0 ])
  /\ ~ cleared_before_build "docs/_build" sphinx_html
        (execute docs linked_host
           {[ "docs/index.rst"; "docs/_build"; "docs/_build/html/index.html" ]}).2.
Proof.
  assert (Hrun : execute docs linked_host
                   {[ "docs/index.rst"; "docs/_build"; "docs/_build/html/index.html" ]}
                 = (SUCCESS,
                    [ Spawn (Pip ["-e"; "."])
                        {[ "docs/index.rst"; "docs/_build"; "docs/_build/html/index.html" ]} 0;
                      Spawn (Pip ["sphinx"; "alabaster"; "recommonmark"])
                        {[ "docs/index.rst"; "docs/_build"; "docs/_build/html/index.html" ]} 0;
                      Rmtree "docs/_build" true;
                      Spawn (Cmd sphinx_html)
                        {[ "docs/index.rst"; "docs/_build"; "docs/_build/html/index.html" ]} 0 ]))
    by (vm_compute; reflexivity).
  split; [exact Hrun |].
  rewrite Hrun. cbn [snd]. intros Hcleared.
  destruct (Hcleared 3%nat _ eq_refl eq_refl) as (before & st & He & _ & Hout).
  injection He as <- _.
  apply (Hout "docs/_build/html/index.html"); [reflexivity | set_solver].
Qed.

(** C9, amended: in the docs and docfx sessions, whenever sphinx-build
    is invoked the log entry just before it is the removal of
    docs/_build with errors ignored, and what exists at or below
    docs/_build when sphinx-build starts is exactly what that removal
    could not delete: nothing when docs/_build is missing or is a
    directory that can be emptied.  The removal never fails the session:
    a run reported as failed has a process that exited with a status
    other than 0, and once the two installs have exited with status 0
    sphinx-build is invoked, whatever became of docs/_build. *)
Theorem build_directory_cleared (h : host) (files : gset string) :
  removed_before_build "docs/_build" sphinx_html h (execute docs h files).2
  /\ removed_before_build "docs/_build" sphinx_docfx h (execute docfx h files).2
  /\ (can_remove "docs/_build" h ->
      cleared_before_build "docs/_build" sphinx_html (execute docs h files).2
      /\ cleared_before_build "docs/_build" sphinx_docfx (execute docfx h files).2)
  /\ fails_by_process_only (execute docs h files)
  /\ fails_by_process_only (execute docfx h files)
  /\ (all_succeeded (take 2 (execute docs h files).2) ->
      exists before st,
        (execute docs h files).2 !! 3%nat = Some (Spawn (Cmd sphinx_html) before st))
  /\ (all_succeeded (take 2 (execute docfx h files).2) ->
      exists before st,
        (execute docfx h files).2 !! 3%nat = Some (Spawn (Cmd sphinx_docfx) before st)).
Proof.
  assert (Hdocs : removed_before_build "docs/_build" sphinx_html h (execute docs h files).2)
    by (apply (removed_ext _ _ _ _ _ _ (docs_script h _)), build_script_removed).
  assert (Hdocfx : removed_before_build "docs/_build" sphinx_docfx h (execute docfx h files).2)
    by (apply (removed_ext _ _ _ _ _ _ (docfx_script h _)), build_script_removed).
  split; [exact Hdocs |]. split; [exact Hdocfx |].
  split; [| split; [| split; [| split]]].
  - intros Hcan. split; eapply removed_cleared; eassumption.
  - apply (script_fails_by_process_only _ _ _ _ (docs_script h _)).
  - apply (script_fails_by_process_only _ _ _ _ (docfx_script h _)).
  - apply (script_reaches_build _ _ _ _ _ _ _ (docs_script h _)).
  - apply (script_reaches_build _ _ _ _ _ _ _ (docfx_script h _)).
Qed.

Lemma build_directory_cleared_witness :
  exists before st,
    (execute docs (quiet_host ∅ [])
       {[ "docs/index.rst"; "docs/_build"; "docs/_build/html/index.html" ]}).2 !! 3%nat
    = Some (Spawn (Cmd sphinx_html) before st)
    /\ "docs/_build/html/index.html" ∉ before.
Proof.
  destruct (build_directory_cleared (quiet_host ∅ [])
              {[ "docs/index.rst"; "docs/_build"; "docs/_build/html/index.html" ]})
    as (_ & _ & Hcleared & _ & _ & Hreach & _).
  destruct Hcleared as [Hcleared _]; [intros n fs0; reflexivity |].
  destruct Hreach as (before & st & Hl).
  - vm_compute. repeat (constructor; [intros H; apply H; reflexivity |]). constructor.
  - exists before, st. split; [exact Hl |].
    destruct (Hcleared 3%nat _ Hl eq_refl) as (before' & st' & He & _ & Hout).
    injection He as -> ->. apply Hout. reflexivity.
Defined.

(** ** Runs on concrete hosts *)

Example unit_on_quiet_host :
  runs (execute unit_ (quiet_host ∅ ["-k"; "row"]) ∅).2
  = [ ["py.test"; "--quiet"; "--cov=google.cloud"; "--cov=tests.unit";
       "--cov-append"; "--cov-config=.coveragerc"; "--cov-report=";
       "--cov-fail-under=0"; "tests/unit"; "-k"; "row"] ].
Proof. vm_compute. reflexivity. Qed.

Example system_with_folder_only :
  execute system (quiet_host with_credentials []) {[ "tests/system" ]}
  = (SUCCESS,
     [ Spawn (Pip ["--pre"; "grpcio"]) {[ "tests/system" ]} 0;
       Spawn (Pip ["mock"; "pytest"]) {[ "tests/system" ]} 0;
       Spawn (Pip ["-e"; "test_utils/"]) {[ "tests/system" ]} 0;
       Spawn (Pip ["-e"; "."]) {[ "tests/system" ]} 0;
       Spawn (Cmd ["py.test"; "--quiet"; "tests/system"]) {[ "tests/system" ]} 0 ]).
Proof. vm_compute. reflexivity. Qed.

Example docs_on_stale_build :
  execute docs (quiet_host ∅ [])
    {[ "docs/index.rst"; "docs/_build"; "docs/_build/html/index.html" ]}
  = (SUCCESS,
     [ Spawn (Pip ["-e"; "."])
         {[ "docs/index.rst"; "docs/_build"; "docs/_build/html/index.html" ]} 0;
       Spawn (Pip ["sphinx"; "alabaster"; "recommonmark"])
         {[ "docs/index.rst"; "docs/_build"; "docs/_build/html/index.html" ]} 0;
       Rmtree "docs/_build" true;
       Spawn (Cmd sphinx_html) {[ "docs/index.rst" ]} 0 ]).
Proof. vm_compute. reflexivity. Qed.

Example lint_stops_at_black :
  execute lint
    {| environ := ∅; posargs := [];
       spawn := fun n _ files => (if Nat.eqb n 1 then 1 else 0, files);
       undeletable := fun _ _ _ => ∅ |} ∅
  = (FAILED,
     [ Spawn (Pip ["flake8"; "black"]) ∅ 0;
       Spawn (Cmd ["black"; "--check"; "google"; "tests"; "docs"]) ∅ 1 ]).
Proof. vm_compute. reflexivity. Qed.

(** ** The paths on the command lines *)

Lemma snippets_started h files :
  credentials h <> "" ->
  snippets h {| fs := files; log := [] |}
  = script (snippets_steps (posargs h)) h {| fs := files; log := [] |}.
Proof.
  intros Hc. rewrite snippets_script. apply String.eqb_neq in Hc. rewrite Hc.
  reflexivity.
Qed.

Lemma system_started h files :
  credentials h <> "" ->
  "tests/system.py" ∈ files \/ "tests/system" ∈ files ->
  system h {| fs := files; log := [] |}
  = script (system_steps (bool_decide ("tests/system.py" ∈ files))
                         (bool_decide ("tests/system" ∈ files)) (posargs h))
      h {| fs := files; log := [] |}.
Proof.
  intros Hc Hfound. rewrite system_script. cbn [fs].
  apply String.eqb_neq in Hc. rewrite Hc.
  destruct Hfound as [Hf | Hf]; rewrite (bool_decide_eq_true_2 _ Hf);
    [| rewrite andb_false_r]; reflexivity.
Qed.

Lemma script_calls_prefix func steps h files :
  func h {| fs := files; log := [] |} = script steps h {| fs := files; log := [] |} ->
  map step_of (execute func h files).2 `prefix_of` steps.
Proof.
  intros H. destruct (execute_script _ _ _ _ H) as (d & r & -> & Hran).
  exact (ran_prefix _ _ _ Hran).
Qed.

Lemma skipped_calls_prefix func steps h files reason :
  func h {| fs := files; log := [] |}
  = (inl (SessionSkip reason), {| fs := files; log := [] |}) ->
  map step_of (execute func h files).2 `prefix_of` steps.
Proof. intros H. rewrite (execute_skip _ _ _ _ H). apply prefix_nil. Qed.

Lemma system_calls_prefix h files :
  map step_of (execute system h files).2
    `prefix_of` system_steps (bool_decide ("tests/system.py" ∈ files))
                             (bool_decide ("tests/system" ∈ files)) (posargs h).
Proof.
  pose proof (system_script h {| fs := files; log := [] |}) as H. cbn [fs] in H.
  destruct (String.eqb (credentials h) ""); [exact (skipped_calls_prefix _ _ _ _ _ H) |].
  destruct (negb _ && negb _); [exact (skipped_calls_prefix _ _ _ _ _ H) |].
  exact (script_calls_prefix _ _ _ _ H).
Qed.

Lemma snippets_calls_prefix h files :
  map step_of (execute snippets h files).2 `prefix_of` snippets_steps (posargs h).
Proof.
  pose proof (snippets_script h {| fs := files; log := [] |}) as H.
  destruct (String.eqb (credentials h) ""); [exact (skipped_calls_prefix _ _ _ _ _ H) |].
  exact (script_calls_prefix _ _ _ _ H).
Qed.

Lemma unit_calls_prefix h files :
  map step_of (execute unit_ h files).2 `prefix_of` unit_steps (posargs h).
Proof. exact (script_calls_prefix _ _ _ _ (default_script h _)). Qed.

Lemma prefix_paths_among extra h steps l :
  map step_of l `prefix_of` steps ->
  (forall c a, In (Do c) steps -> In a (arguments c) -> path_like a = true ->
               listed_path a = true \/ In a extra \/ In a (posargs h)) ->
  paths_among extra h l.
Proof.
  intros Hpre Hsteps c before st a Hin Ha Hp.
  apply (Hsteps c a); [| exact Ha | exact Hp].
  apply (in_prefix _ _ _ Hpre).
  change (Do c) with (step_of (Spawn c before st)). apply in_map, Hin.
Qed.

Ltac settle_path Hp :=
  first [ right; right; assumption
        | exfalso; vm_compute in Hp; discriminate Hp
        | left; reflexivity
        | right; left; simpl; tauto ].

Ltac settle_paths :=
  intros c a Hc Ha Hp; simpl in Hc;
  repeat destruct Hc as [Hc | Hc]; try contradiction; try discriminate Hc;
  injection Hc as <-; simpl in Ha;
  repeat destruct Ha as [Ha | Ha]; try contradiction;
  try subst a; settle_path Hp.

Lemma unit_paths h :
  forall c a, In (Do c) (unit_steps (posargs h)) -> In a (arguments c) ->
    path_like a = true ->
    listed_path a = true \/ In a ["."] \/ In a (posargs h).
Proof. settle_paths. Qed.

Lemma system_paths e1 e2 h :
  forall c a, In (Do c) (system_steps e1 e2 (posargs h)) -> In a (arguments c) ->
    path_like a = true ->
    listed_path a = true \/ In a ["test_utils/"; "."] \/ In a (posargs h).
Proof. destruct e1, e2; settle_paths. Qed.

Lemma snippets_paths h :
  forall c a, In (Do c) (snippets_steps (posargs h)) -> In a (arguments c) ->
    path_like a = true ->
    listed_path a = true \/ In a ["test_utils/"; "."] \/ In a (posargs h).
Proof. settle_paths. Qed.

Lemma docs_paths h :
  forall c a, In (Do c) docs_steps -> In a (arguments c) -> path_like a = true ->
    listed_path a = true \/ In a ["."; "docs/"] \/ In a (posargs h).
Proof. settle_paths. Qed.

Lemma docfx_paths h :
  forall c a, In (Do c) docfx_steps -> In a (arguments c) -> path_like a = true ->
    listed_path a = true \/ In a ["."; "docs/"] \/ In a (posargs h).
Proof. settle_paths. Qed.

(** C6 as stated fails: the sessions also refer to relative paths that
    the specification does not list.  With credentials set and
    tests/system.py present, the system session installs from
    test_utils/ (and from the current directory). *)
Lemma system_installs_from_test_utils :
  In (Spawn (Pip ["-e"; "test_utils/"]) {[ "tests/system.py" ]} 0)
     (execute system (quiet_host with_credentials []) {[ "tests/system.py" ]}).2
  /\ path_like "test_utils/" = true
  /\ listed_path "test_utils/" = false
  /\ ~ only_listed_paths (quiet_host with_credentials [])
        (execute system (quiet_host with_credentials []) {[ "tests/system.py" ]}).2.
Proof.
  assert (Hin : In (Spawn (Pip ["-e"; "test_utils/"]) {[ "tests/system.py" ]} 0)
                  (execute system (quiet_host with_credentials [])
                     {[ "tests/system.py" ]}).2)
    by (vm_compute; right; right; left; reflexivity).
  split; [exact Hin |]. split; [reflexivity |]. split; [reflexivity |].
  intros Hclaim.
  destruct (Hclaim _ _ _ "test_utils/" Hin) as [Hl | [[] | []]];
    [right; left; reflexivity | reflexivity | discriminate Hl].
Qed.

(** C6, amended: once its installs have exited with status 0 (and, for
    system and snippets, with credentials set) the unit session runs
    py.test on tests/unit, the system session on tests/system.py and on
    tests/system, whichever exist, the snippets session on
    docs/snippets.py and then docs/snippets_table.py, and the docs and
    docfx sessions run sphinx-build with its doctree cache and its
    output below docs/_build.  Every call of these sessions is one of
    their fixed command lines, py.test being followed by the positional
    arguments of the invocation.  On those command lines the arguments
    that read as paths are the listed ones and, besides, the current
    directory and test_utils/ for the installs and docs/ as the source
    of sphinx-build. *)
Theorem session_paths (h : host) (files : gset string) :
  (all_succeeded (take 2 (execute unit_ h files).2) ->
   exists before st,
     (execute unit_ h files).2 !! 2%nat
     = Some (Spawn (Cmd (unit_command (posargs h))) before st))
  /\ (credentials h <> "" -> "tests/system.py" ∈ files ->
      all_succeeded (take 4 (execute system h files).2) ->
      exists before st,
        (execute system h files).2 !! 4%nat
        = Some (Spawn (Cmd (pytest "tests/system.py" (posargs h))) before st))
  /\ (credentials h <> "" -> "tests/system.py" ∉ files -> "tests/system" ∈ files ->
      all_succeeded (take 4 (execute system h files).2) ->
      exists before st,
        (execute system h files).2 !! 4%nat
        = Some (Spawn (Cmd (pytest "tests/system" (posargs h))) before st))
  /\ (credentials h <> "" -> "tests/system.py" ∈ files -> "tests/system" ∈ files ->
      all_succeeded (take 5 (execute system h files).2) ->
      exists before st,
        (execute system h files).2 !! 5%nat
        = Some (Spawn (Cmd (pytest "tests/system" (posargs h))) before st))
  /\ (credentials h <> "" ->
      all_succeeded (take 3 (execute snippets h files).2) ->
      exists before st,
        (execute snippets h files).2 !! 3%nat
        = Some (Spawn (Cmd (pytest "docs/snippets.py" (posargs h))) before st))
  /\ (credentials h <> "" ->
      all_succeeded (take 4 (execute snippets h files).2) ->
      exists before st,
        (execute snippets h files).2 !! 4%nat
        = Some (Spawn (Cmd (pytest "docs/snippets_table.py" (posargs h))) before st))
  /\ (all_succeeded (take 2 (execute docs h files).2) ->
      exists before st,
        (execute docs h files).2 !! 3%nat = Some (Spawn (Cmd sphinx_html) before st))
  /\ (all_succeeded (take 2 (execute docfx h files).2) ->
      exists before st,
        (execute docfx h files).2 !! 3%nat = Some (Spawn (Cmd sphinx_docfx) before st))
  /\ map step_of (execute unit_ h files).2 `prefix_of` unit_steps (posargs h)
  /\ map step_of (execute system h files).2
       `prefix_of` system_steps (bool_decide ("tests/system.py" ∈ files))
                                (bool_decide ("tests/system" ∈ files)) (posargs h)
  /\ map step_of (execute snippets h files).2 `prefix_of` snippets_steps (posargs h)
  /\ map step_of (execute docs h files).2 `prefix_of` docs_steps
  /\ map step_of (execute docfx h files).2 `prefix_of` docfx_steps
  /\ paths_among ["."] h (execute unit_ h files).2
  /\ paths_among ["test_utils/"; "."] h (execute system h files).2
  /\ paths_among ["test_utils/"; "."] h (execute snippets h files).2
  /\ paths_among ["."; "docs/"] h (execute docs h files).2
  /\ paths_among ["."; "docs/"] h (execute docfx h files).2
  /\ Forall (fun cmd : list string =>
               exists opts, cmd = opts ++ ["-d"; "docs/_build/doctrees/"; "docs/"; "docs/_build/html/"])
            [sphinx_html; sphinx_docfx]
  /\ listed_path "docs/_build/doctrees/" = true
  /\ listed_path "docs/_build/html/" = true.
Proof.
  assert (Hsn : credentials h <> "" ->
                exists d r, execute snippets h files = (status_of r, d)
                            /\ ran (snippets_steps (posargs h)) d r)
    by (intros Hc; apply execute_script, snippets_started, Hc).
  assert (Hsys : credentials h <> "" ->
                 "tests/system.py" ∈ files \/ "tests/system" ∈ files ->
                 exists d r,
                   execute system h files = (status_of r, d)
                   /\ ran (system_steps (bool_decide ("tests/system.py" ∈ files))
                              (bool_decide ("tests/system" ∈ files)) (posargs h)) d r)
    by (intros Hc Hf; apply execute_script, system_started; assumption).
  repeat match goal with |- _ /\ _ => split end.
  - unfold unit_.
    destruct (execute_script _ _ _ _ (default_script h {| fs := files; log := [] |}))
      as (d & r & -> & Hran). cbn [snd].
    apply (ran_reaches_run _ _ _ _ _ Hran). reflexivity.
  - intros Hc Hfile. destruct (Hsys Hc (or_introl Hfile)) as (d & r & -> & Hran).
    cbn [snd]. rewrite (bool_decide_eq_true_2 _ Hfile) in Hran.
    apply (ran_reaches_run _ _ _ _ _ Hran). reflexivity.
  - intros Hc Hfile Hdir. destruct (Hsys Hc (or_intror Hdir)) as (d & r & -> & Hran).
    cbn [snd]. rewrite (bool_decide_eq_false_2 _ Hfile), (bool_decide_eq_true_2 _ Hdir) in Hran.
    apply (ran_reaches_run _ _ _ _ _ Hran). reflexivity.
  - intros Hc Hfile Hdir. destruct (Hsys Hc (or_introl Hfile)) as (d & r & -> & Hran).
    cbn [snd]. rewrite (bool_decide_eq_true_2 _ Hfile), (bool_decide_eq_true_2 _ Hdir) in Hran.
    apply (ran_reaches_run _ _ _ _ _ Hran). reflexivity.
  - intros Hc. destruct (Hsn Hc) as (d & r & -> & Hran). cbn [snd].
    apply (ran_reaches_run _ _ _ _ _ Hran). reflexivity.
  - intros Hc. destruct (Hsn Hc) as (d & r & -> & Hran). cbn [snd].
    apply (ran_reaches_run _ _ _ _ _ Hran). reflexivity.
  - apply (script_reaches_build _ _ _ _ _ _ _ (docs_script h _)).
  - apply (script_reaches_build _ _ _ _ _ _ _ (docfx_script h _)).
  - apply unit_calls_prefix.
  - apply system_calls_prefix.
  - apply snippets_calls_prefix.
  - exact (script_calls_prefix _ _ _ _ (docs_script h _)).
  - exact (script_calls_prefix _ _ _ _ (docfx_script h _)).
  - exact (prefix_paths_among _ _ _ _ (unit_calls_prefix h files) (unit_paths h)).
  - exact (prefix_paths_among _ _ _ _ (system_calls_prefix h files) (system_paths _ _ h)).
  - exact (prefix_paths_among _ _ _ _ (snippets_calls_prefix h files) (snippets_paths h)).
  - exact (prefix_paths_among _ _ _ _
             (script_calls_prefix _ _ _ _ (docs_script h _)) (docs_paths h)).
  - exact (prefix_paths_among _ _ _ _
             (script_calls_prefix _ _ _ _ (docfx_script h _)) (docfx_paths h)).
  - repeat constructor.
    + exists ["sphinx-build"; "-W"; "-T"; "-N"; "-b"; "html"]. reflexivity.
    + exists (take 7 sphinx_docfx). reflexivity.
  - reflexivity.
  - reflexivity.
Qed.

Lemma session_paths_witness :
  (exists before st,
     (execute unit_ (quiet_host ∅ ["-k"; "row"]) ∅).2 !! 2%nat
     = Some (Spawn (Cmd (unit_command ["-k"; "row"])) before st))
  /\ (exists before st,
        (execute docs (quiet_host ∅ []) {[ "docs/index.rst" ]}).2 !! 3%nat
        = Some (Spawn (Cmd sphinx_html) before st)).
Proof.
  split.
  - destruct (session_paths (quiet_host ∅ ["-k"; "row"]) ∅) as (Hunit & _).
    apply Hunit.
    vm_compute. repeat (constructor; [intros H; apply H; reflexivity |]). constructor.
  - destruct (session_paths (quiet_host ∅ []) {[ "docs/index.rst" ]})
      as (_ & _ & _ & _ & _ & _ & Hdocs & _).
    apply Hdocs.
    vm_compute. repeat (constructor; [intros H; apply H; reflexivity |]). constructor.
Defined.

(** * Further properties of the sessions *)

(** ** Runs that follow a script *)

Lemma all_succeeded_removelast d : all_succeeded d -> all_succeeded (removelast d).
Proof.
  induction d as [| e [| e' d] IH]; intros Hok; [constructor | constructor |].
  change (removelast (e :: e' :: d)) with (e :: removelast (e' :: d)).
  inversion Hok as [| ? ? He Hrest]; subst.
  constructor; [exact He | apply IH, Hrest].
Qed.

Lemma ran_not_skipped steps d r : ran steps d r -> status_of r <> SKIPPED.
Proof. intros [d' _ _ | d0 c before st rest _ _ _]; discriminate. Qed.

Lemma ran_failed_iff steps d r :
  ran steps d r -> (status_of r = FAILED <-> ~ all_succeeded d).
Proof.
  intros [d' _ Hok | d0 c before st rest _ _ Hst]; cbn [status_of].
  - split; [discriminate | intros Hn; destruct (Hn Hok)].
  - split; [| reflexivity]. intros _ Hok.
    apply Forall_app in Hok as [_ Hlast].
    apply Forall_cons in Hlast as [Hlast _]. exact (Hlast Hst).
Qed.

Lemma ran_follows steps d r : ran steps d r -> follows steps (status_of r, d).
Proof.
  intros Hran. unfold follows. cbn [fst snd].
  split; [exact (ran_prefix _ _ _ Hran) |].
  split; [| split; [| split; [exact (ran_failed_iff _ _ _ Hran)
                             | exact (ran_not_skipped _ _ _ Hran)]]].
  - destruct Hran as [d' _ Hok | d0 c before st rest _ Hok _].
    + apply all_succeeded_removelast, Hok.
    + rewrite removelast_last. exact Hok.
  - split.
    + intros Hs. destruct Hran as [d' Hd Hok | d0 c before st rest _ _ _];
        [split; assumption | discriminate].
    + intros [_ Hok]. destruct (ran_success _ _ _ Hran Hok) as [-> _]. reflexivity.
Qed.

Lemma script_follows func steps h files :
  func h {| fs := files; log := [] |} = script steps h {| fs := files; log := [] |} ->
  follows steps (execute func h files).
Proof.
  intros H. destruct (execute_script _ _ _ _ H) as (d & r & -> & Hran).
  exact (ran_follows _ _ _ Hran).
Qed.

(** X1: the seven sessions that have no guard go through their calls in
    the order of the source and stop at the first process that exits
    with a status other than 0.  Each succeeds exactly when all its
    calls were made and every process exited with status 0, fails
    exactly when a process did not, and is never skipped. *)
Theorem unguarded_sessions_follow_scripts (h : host) (files : gset string) :
  follows lint_steps (execute lint h files)
  /\ follows blacken_steps (execute blacken h files)
  /\ follows lint_setup_py_steps (execute lint_setup_py h files)
  /\ follows (unit_steps (posargs h)) (execute unit_ h files)
  /\ follows cover_steps (execute cover h files)
  /\ follows docs_steps (execute docs h files)
  /\ follows docfx_steps (execute docfx h files).
Proof.
  refine (conj _ (conj _ (conj _ (conj _ (conj _ (conj _ _)))))).
  - exact (script_follows _ _ _ _ (lint_script h _)).
  - exact (script_follows _ _ _ _ (blacken_script h _)).
  - exact (script_follows _ _ _ _ (lint_setup_py_script h _)).
  - exact (script_follows _ _ _ _ (default_script h _)).
  - exact (script_follows _ _ _ _ (cover_script h _)).
  - exact (script_follows _ _ _ _ (docs_script h _)).
  - exact (script_follows _ _ _ _ (docfx_script h _)).
Qed.

(** X2: past their guards the two guarded sessions follow their calls in
    the same way.  With credentials set, snippets makes its three
    installs and runs py.test on the two snippet files; with credentials
    set and a target found, system makes its four installs and runs
    py.test on the targets found at the start.  Each stops at the first
    process that exits with a status other than 0 and succeeds exactly
    when every call was made and none failed. *)
Theorem guarded_sessions_follow_scripts (h : host) (files : gset string) :
  credentials h <> "" ->
  follows (snippets_steps (posargs h)) (execute snippets h files)
  /\ ("tests/system.py" ∈ files \/ "tests/system" ∈ files ->
      follows (system_steps (bool_decide ("tests/system.py" ∈ files))
                            (bool_decide ("tests/system" ∈ files)) (posargs h))
              (execute system h files)).
Proof.
  intros Hc. split.
  - exact (script_follows _ _ _ _ (snippets_started h files Hc)).
  - intros Hfound. exact (script_follows _ _ _ _ (system_started h files Hc Hfound)).
Qed.

Lemma guarded_sessions_follow_scripts_witness :
  follows (snippets_steps ["-x"])
    (execute snippets (red_host with_credentials ["-x"]) {[ "tests/system" ]})
  /\ follows (system_steps false true ["-x"])
       (execute system (red_host with_credentials ["-x"]) {[ "tests/system" ]}).
Proof.
  destruct (guarded_sessions_follow_scripts
              (red_host with_credentials ["-x"]) {[ "tests/system" ]})
    as [Hsnippets Hsystem].
  - discriminate.
  - split; [exact Hsnippets |]. apply Hsystem. right. set_solver.
Defined.

(** ** When a session is skipped *)

Lemma script_not_skipped func steps h files :
  func h {| fs := files; log := [] |} = script steps h {| fs := files; log := [] |} ->
  (execute func h files).1 <> SKIPPED.
Proof.
  intros H. destruct (execute_script _ _ _ _ H) as (d & r & -> & Hran).
  exact (ran_not_skipped _ _ _ Hran).
Qed.

Lemma system_without_tests h s :
  credentials h <> "" ->
  "tests/system.py" ∉ fs s -> "tests/system" ∉ fs s ->
  system h s = (inl (SessionSkip "System tests were not found"), s).
Proof.
  intros Hc Hfile Hdir. rewrite system_script.
  apply String.eqb_neq in Hc. rewrite Hc.
  rewrite !bool_decide_eq_false_2 by assumption. reflexivity.
Qed.

(** X3: the system session is skipped exactly when the credential
    variable is unset or empty or neither tests/system.py nor
    tests/system exists, and the snippets session exactly when the
    credential variable is unset or empty.  The credential guard comes
    first: without credentials the reason given is the one about
    credentials, whether or not tests exist. *)
Theorem skipped_exactly (h : host) (files : gset string) :
  ((execute system h files).1 = SKIPPED
   <-> credentials h = ""
       \/ (("tests/system.py" ∉ files) /\ ("tests/system" ∉ files)))
  /\ ((execute snippets h files).1 = SKIPPED <-> credentials h = "")
  /\ (credentials h = "" ->
      system h {| fs := files; log := [] |}
      = (inl (SessionSkip "Credentials must be set via environment variable"),
         {| fs := files; log := [] |})).
Proof.
  split; [| split].
  - split.
    + intros Hs.
      destruct (decide (credentials h = "")) as [Hc | Hc]; [left; exact Hc | right].
      destruct (decide ("tests/system.py" ∈ files)) as [Hfile | Hfile];
        [destruct (script_not_skipped _ _ _ _ (system_started h files Hc (or_introl Hfile)) Hs) |].
      destruct (decide ("tests/system" ∈ files)) as [Hdir | Hdir];
        [destruct (script_not_skipped _ _ _ _ (system_started h files Hc (or_intror Hdir)) Hs) |].
      split; assumption.
    + intros [Hc | [Hfile Hdir]].
      * rewrite (execute_skip _ _ _ _ (system_without_credentials h _ Hc)). reflexivity.
      * destruct (decide (credentials h = "")) as [Hc | Hc].
        -- rewrite (execute_skip _ _ _ _ (system_without_credentials h _ Hc)). reflexivity.
        -- rewrite (execute_skip _ _ _ _
                      (system_without_tests h {| fs := files; log := [] |} Hc Hfile Hdir)).
           reflexivity.
  - split.
    + intros Hs.
      destruct (decide (credentials h = "")) as [Hc | Hc]; [exact Hc |].
      destruct (script_not_skipped _ _ _ _ (snippets_started h files Hc) Hs).
    + intros Hc.
      rewrite (execute_skip _ _ _ _ (snippets_without_credentials h _ Hc)). reflexivity.
  - intros Hc. apply system_without_credentials, Hc.
Qed.

(** ** What nox reports of every registered session *)

Lemma script_outcome name func steps h files :
  step_installs steps = declared_installs name ->
  step_runs steps <> [] ->
  (existsb step_is_clear steps = true -> name = "docs" \/ name = "docfx") ->
  func h {| fs := files; log := [] |} = script steps h {| fs := files; log := [] |} ->
  outcome_of name (execute func h files).
Proof.
  intros Hi Hr Hc H. destruct (execute_script _ _ _ _ H) as (d & r & -> & Hran).
  exact (outcome_ran name steps d r Hi Hr Hc Hran).
Qed.

Lemma skip_outcome name func h files reason :
  name = "system" \/ name = "snippets" ->
  func h {| fs := files; log := [] |}
  = (inl (SessionSkip reason), {| fs := files; log := [] |}) ->
  outcome_of name (execute func h files).
Proof. intros Hn H. rewrite (execute_skip _ _ _ _ H). constructor. exact Hn. Qed.

Ltac script_facts :=
  first [ reflexivity | discriminate | intros; auto ].

Lemma system_outcome h files : outcome_of "system" (execute system h files).
Proof.
  pose proof (system_script h {| fs := files; log := [] |}) as H.
  destruct (String.eqb (credentials h) "");
    [exact (skip_outcome _ _ _ _ _ (or_introl eq_refl) H) |].
  destruct (negb _ && negb _) eqn:Hguard;
    [exact (skip_outcome _ _ _ _ _ (or_introl eq_refl) H) |].
  refine (script_outcome _ _ _ _ _ _ _ _ H);
    destruct (bool_decide ("tests/system.py" ∈ _)), (bool_decide ("tests/system" ∈ _));
    try discriminate; script_facts.
Qed.

Lemma snippets_outcome h files : outcome_of "snippets" (execute snippets h files).
Proof.
  pose proof (snippets_script h {| fs := files; log := [] |}) as H.
  destruct (String.eqb (credentials h) "");
    [exact (skip_outcome _ _ _ _ _ (or_intror eq_refl) H) |].
  refine (script_outcome _ _ _ _ _ _ _ _ H); script_facts.
Qed.

Lemma registry_outcome name func h files :
  In (name, func) registry -> outcome_of name (execute func h files).
Proof.
  rewrite registry_eq. simpl.
  intros [H | [H | [H | [H | [H | [H | [H | [H | [H | []]]]]]]]]];
    injection H as <- <-.
  - refine (script_outcome _ _ _ _ _ _ _ _ (lint_script _ _)); script_facts.
  - refine (script_outcome _ _ _ _ _ _ _ _ (blacken_script _ _)); script_facts.
  - refine (script_outcome _ _ _ _ _ _ _ _ (lint_setup_py_script _ _)); script_facts.
  - refine (script_outcome _ _ _ _ _ _ _ _ (default_script _ _)); script_facts.
  - refine (script_outcome _ _ _ _ _ _ _ _ (cover_script _ _)); script_facts.
  - apply system_outcome.
  - apply snippets_outcome.
  - refine (script_outcome _ _ _ _ _ _ _ _ (docs_script _ _)); script_facts.
  - refine (script_outcome _ _ _ _ _ _ _ _ (docfx_script _ _)); script_facts.
Qed.

Lemma ran_nonempty steps d r : steps <> [] -> ran steps d r -> d <> [].
Proof.
  intros Hs [d' Hd _ | d0 c before st rest _ _ _].
  - intros ->. apply Hs. symmetry. exact Hd.
  - intros Hnil. apply app_eq_nil in Hnil as [_ Hnil]. discriminate.
Qed.

Lemma step_runs_nonempty steps : step_runs steps <> [] -> steps <> [].
Proof. intros H ->. apply H. reflexivity. Qed.

(** X4: a registered session is reported as skipped exactly when its
    log is empty, and only system and snippets are ever skipped.  A skip
    therefore comes before anything is installed or run, and every run
    that is not skipped has started at least one process. *)
Theorem skip_leaves_nothing
    (name : string) (func : M unit) (h : host) (files : gset string) :
  In (name, func) registry ->
  ((execute func h files).1 = SKIPPED <-> (execute func h files).2 = [])
  /\ ((execute func h files).1 = SKIPPED -> name = "system" \/ name = "snippets").
Proof.
  intros Hreg. pose proof (registry_outcome name func h files Hreg) as Ho.
  destruct Ho as [Hn | steps d r _ Hruns _ Hran]; cbn [fst snd].
  - split; [split; reflexivity | intros _; exact Hn].
  - pose proof (ran_not_skipped _ _ _ Hran) as Hns.
    pose proof (ran_nonempty _ _ _ (step_runs_nonempty _ Hruns) Hran) as Hne.
    split; [split; intros H; [destruct (Hns H) | destruct (Hne H)] |].
    intros H. destruct (Hns H).
Qed.

Lemma skip_leaves_nothing_witness :
  (execute system (quiet_host ∅ []) {[ "tests/system.py" ]}).1 = SKIPPED
  <-> (execute system (quiet_host ∅ []) {[ "tests/system.py" ]}).2 = [].
Proof.
  apply (skip_leaves_nothing "system" system (quiet_host ∅ []) {[ "tests/system.py" ]}).
  rewrite registry_eq. simpl. tauto.
Defined.

Lemma runs_nonempty_lookup d :
  runs d <> [] -> exists j b, d !! j = Some b /\ is_run b = true.
Proof.
  induction d as [| e d IH]; intros Hne; [destruct (Hne eq_refl) |].
  destruct e as [[a | a] before st | p ie].
  - destruct (IH Hne) as (j & b & Hj & Hb). exists (S j), b. split; assumption.
  - exists 0%nat, (Spawn (Cmd a) before st). split; reflexivity.
  - destruct (IH Hne) as (j & b & Hj & Hb). exists (S j), b. split; assumption.
Qed.

(** X5: a registered session reported as successful has made every
    install of its dependency list, has run at least one command, and
    every one of its processes exited with status 0; and a session is
    reported as failed exactly when one of its processes exited with a
    status other than 0. *)
Theorem success_is_complete
    (name : string) (func : M unit) (h : host) (files : gset string) :
  In (name, func) registry ->
  ((execute func h files).1 = SUCCESS ->
   all_succeeded (execute func h files).2
   /\ installs (execute func h files).2 = declared_installs name
   /\ exists j b, (execute func h files).2 !! j = Some b /\ is_run b = true)
  /\ ((execute func h files).1 = FAILED
      <-> exists i e, (execute func h files).2 !! i = Some e /\ exited_nonzero e).
Proof.
  intros Hreg. pose proof (registry_outcome name func h files Hreg) as Ho.
  destruct Ho as [Hn | steps d r Hinst Hruns _ Hran]; cbn [fst snd].
  - split; [discriminate |]. split; [discriminate |].
    intros (i & e & Hi & _). discriminate.
  - split.
    + intros Hs. destruct Hran as [d Hd Hok | d0 c before st rest _ _ _]; [| discriminate].
      split; [exact Hok |]. split.
      * rewrite installs_step_installs, Hd. exact Hinst.
      * apply runs_nonempty_lookup. rewrite runs_step_runs, Hd. exact Hruns.
    + split.
      * intros Hf. destruct Hran as [d _ _ | d0 c before st rest _ _ Hst]; [discriminate |].
        exists (length d0), (Spawn c before st). split; [| exact Hst].
        rewrite lookup_app_r, Nat.sub_diag by lia. reflexivity.
      * intros (i & e & Hi & He).
        destruct (ran_failure_last _ _ _ _ _ Hran Hi He) as [_ [c ->]]. reflexivity.
Qed.

Lemma success_is_complete_witness :
  installs (execute lint (quiet_host ∅ []) ∅).2 = [["flake8"; "black"]]
  /\ exists j b, (execute lint (quiet_host ∅ []) ∅).2 !! j = Some b /\ is_run b = true.
Proof.
  destruct (success_is_complete "lint" lint (quiet_host ∅ []) ∅) as [Hsuccess _].
  - rewrite registry_eq. simpl. tauto.
  - destruct Hsuccess as (_ & Hinstalls & Hrun); [reflexivity |].
    split; [exact Hinstalls | exact Hrun].
Defined.

Lemma existsb_clear_false steps :
  existsb step_is_clear steps = false ->
  Forall (fun st => step_is_clear st = false) steps.
Proof.
  induction steps as [| st rest IH]; [constructor |].
  cbn [existsb]. rewrite orb_false_iff. intros [Hst Hrest].
  constructor; [exact Hst | apply IH, Hrest].
Qed.

(** X9: no registered session other than docs and docfx ever removes a
    directory: its log holds no [shutil.rmtree] entry, so the files
    change only through the processes it starts. *)
Theorem removal_only_in_doc_sessions
    (name : string) (func : M unit) (h : host) (files : gset string) :
  In (name, func) registry -> name <> "docs" -> name <> "docfx" ->
  Forall (fun e => is_rmtree e = false) (execute func h files).2.
Proof.
  intros Hreg Hdocs Hdocfx.
  pose proof (registry_outcome name func h files Hreg) as Ho.
  destruct Ho as [Hn | steps d r _ _ Hclear Hran]; cbn [snd]; [constructor |].
  assert (Hnone : existsb step_is_clear steps = false).
  { destruct (existsb step_is_clear steps); [| reflexivity].
    destruct (Hclear eq_refl) as [-> | ->]; [destruct (Hdocs eq_refl) | destruct (Hdocfx eq_refl)]. }
  apply existsb_clear_false in Hnone.
  apply (Forall_prefix _ _ _ (ran_prefix _ _ _ Hran)) in Hnone.
  rewrite Forall_fmap in Hnone.
  eapply Forall_impl; [exact Hnone |].
  intros [c before st | p ie]; simpl; auto.
Qed.

Lemma removal_only_in_doc_sessions_witness :
  Forall (fun e => is_rmtree e = false)
    (execute cover (quiet_host ∅ []) {[ ".coverage" ]}).2.
Proof.
  apply (removal_only_in_doc_sessions "cover" cover (quiet_host ∅ []) {[ ".coverage" ]}).
  - rewrite registry_eq. simpl. tauto.
  - discriminate.
  - discriminate.
Defined.

(** ** One tool after the other *)

Lemma two_tools_in_order dep first second h files :
  first <> second ->
  runs_after_passing dep first second
    (execute (script [Do (Pip dep); Do (Cmd first); Do (Cmd second)]) h files).2.
Proof.
  intros Hne. rewrite execute_eq. cbn [snd script perform].
  set (s0 := {| fs := files; log := [] |}).
  rewrite bind_run_process.
  destruct (Z.eqb_spec (spawn h (length (log s0)) (Pip dep) (fs s0)).1 0) as [H0 | H0].
  2:{ split; [intros [] | intros before st Hl; discriminate]. }
  set (s1 := after_process (Pip dep) h s0).
  rewrite bind_run_process.
  destruct (Z.eqb_spec (spawn h (length (log s1)) (Cmd first) (fs s1)).1 0) as [H1 | H1].
  2:{ split.
      - cbn. intros [Hin | []]. destruct (Hne Hin).
      - intros before st _ _. cbn. intros [Hin | []]. destruct (Hne Hin). }
  set (s2 := after_process (Cmd first) h s1).
  rewrite bind_unit_ret, run_process_eq.
  assert (Hlog : log (after_process (Cmd second) h s2)
                 = [spawned (Pip dep) h s0; spawned (Cmd first) h s1;
                    spawned (Cmd second) h s2]) by reflexivity.
  assert (Hgoal : runs_after_passing dep first second
                    (log (after_process (Cmd second) h s2))).
  { rewrite Hlog. split.
    - intros _. exists (fs s0), (fs s1). unfold spawned. rewrite H0, H1.
      split; reflexivity.
    - intros before st Hl Hst. cbn in Hl. injection Hl as _ <-.
      destruct (Hst H1). }
  destruct (_ =? 0); exact Hgoal.
Qed.

Lemma runs_after_passing_ext dep first second func steps h files :
  func h {| fs := files; log := [] |} = script steps h {| fs := files; log := [] |} ->
  runs_after_passing dep first second (execute (script steps) h files).2 ->
  runs_after_passing dep first second (execute func h files).2.
Proof. intros H. rewrite !execute_eq, H. auto. Qed.

(** X6: the cover session erases the coverage data only after the
    install and the coverage report have exited with status 0: when the
    report exits otherwise (coverage under 99) the data is kept.  In the
    same way the lint session runs flake8 only after black --check has
    passed. *)
Theorem second_tool_after_first_passed (h : host) (files : gset string) :
  runs_after_passing ["coverage"; "pytest-cov"] coverage_report coverage_erase
    (execute cover h files).2
  /\ runs_after_passing ["flake8"; "black"]
       ["black"; "--check"; "google"; "tests"; "docs"]
       ["flake8"; "google"; "tests"]
       (execute lint h files).2.
Proof.
  split.
  - apply (runs_after_passing_ext _ _ _ _ _ _ _ (cover_script h _)).
    apply two_tools_in_order. discriminate.
  - apply (runs_after_passing_ext _ _ _ _ _ _ _ (lint_script h _)).
    apply two_tools_in_order. discriminate.
Qed.

(** ** What the sessions read of the host *)

Lemma script_same_spawn steps env1 env2 args1 args2 sp und : forall s,
  script steps (Host env1 args1 sp und) s = script steps (Host env2 args2 sp und) s.
Proof.
  induction steps as [| st rest IH]; intros s; [reflexivity |].
  cbn [script]. unfold mbind, M_bind, bind.
  assert (Hst : perform st (Host env1 args1 sp und) s = perform st (Host env2 args2 sp und) s)
    by (destruct st; reflexivity).
  rewrite Hst. destruct (perform st (Host env2 args2 sp und) s) as [[e | []] s'];
    [reflexivity | apply IH].
Qed.

Lemma execute_same func func' h h' files :
  func h {| fs := files; log := [] |} = func' h' {| fs := files; log := [] |} ->
  execute func h files = execute func' h' files.
Proof. intros H. rewrite !execute_eq, H. reflexivity. Qed.

(** X7: lint, blacken, lint_setup_py, cover, docs and docfx read neither
    the environment nor the positional arguments: on two hosts whose
    processes and removals behave alike they are reported alike, with
    the same log. *)
Theorem tools_ignore_environment_and_arguments
    (env1 env2 : gmap string string) (args1 args2 : list string)
    (sp : nat -> call -> gset string -> Z * gset string)
    (und : nat -> string -> gset string -> gset string) (files : gset string) :
  Forall (fun func => execute func (Host env1 args1 sp und) files
                      = execute func (Host env2 args2 sp und) files)
         [lint; blacken; lint_setup_py; cover; docs; docfx].
Proof.
  repeat (constructor; [apply execute_same |]); [.. | constructor].
  - rewrite !lint_script. apply script_same_spawn.
  - rewrite !blacken_script. apply script_same_spawn.
  - rewrite !lint_setup_py_script. apply script_same_spawn.
  - rewrite !cover_script. apply script_same_spawn.
  - rewrite !docs_script. apply script_same_spawn.
  - rewrite !docfx_script. apply script_same_spawn.
Qed.

Lemma prefix_same_calls steps l1 l2 :
  map step_of l1 `prefix_of` steps -> map step_of l2 `prefix_of` steps ->
  same_calls l1 l2.
Proof.
  intros H1 H2 i e1 e2 Hi1 Hi2.
  assert (Hs1 : steps !! i = Some (step_of e1))
    by (eapply prefix_lookup_Some; [| exact H1]; rewrite list_lookup_fmap, Hi1; reflexivity).
  assert (Hs2 : steps !! i = Some (step_of e2))
    by (eapply prefix_lookup_Some; [| exact H2]; rewrite list_lookup_fmap, Hi2; reflexivity).
  congruence.
Qed.

(** X8: the command lines of unit, system and snippets depend on the
    host only through the positional arguments.  On two hosts with the
    same positional arguments and the same files at the start, whatever
    their environments and whatever their processes and removals do,
    the calls the two runs make at a same position of the log are the
    same, argument for argument: the value of
    GOOGLE_APPLICATION_CREDENTIALS is never put on a command line. *)
Theorem command_lines_ignore_environment (h1 h2 : host) (files : gset string) :
  posargs h1 = posargs h2 ->
  same_calls (execute unit_ h1 files).2 (execute unit_ h2 files).2
  /\ same_calls (execute system h1 files).2 (execute system h2 files).2
  /\ same_calls (execute snippets h1 files).2 (execute snippets h2 files).2.
Proof.
  intros Hargs. split; [| split].
  - apply (prefix_same_calls (unit_steps (posargs h1)));
      [| rewrite Hargs]; apply unit_calls_prefix.
  - apply (prefix_same_calls
             (system_steps (bool_decide ("tests/system.py" ∈ files))
                           (bool_decide ("tests/system" ∈ files)) (posargs h1)));
      [| rewrite Hargs]; apply system_calls_prefix.
  - apply (prefix_same_calls (snippets_steps (posargs h1)));
      [| rewrite Hargs]; apply snippets_calls_prefix.
Qed.

Lemma command_lines_ignore_environment_witness :
  same_calls
    (execute system (quiet_host with_credentials ["-x"]) {[ "tests/system" ]}).2
    (execute system
       (red_host {[ GOOGLE_APPLICATION_CREDENTIALS := "/elsewhere.json" ]} ["-x"])
       {[ "tests/system" ]}).2.
Proof.
  destruct (command_lines_ignore_environment
              (quiet_host with_credentials ["-x"])
              (red_host {[ GOOGLE_APPLICATION_CREDENTIALS := "/elsewhere.json" ]} ["-x"])
              {[ "tests/system" ]})
    as (_ & Hsystem & _); [reflexivity | exact Hsystem].
Defined.

(** ** What the documentation builds leave alone *)




(** ** More runs on concrete hosts *)

Example cover_keeps_data_under_threshold :
  execute cover
    {| environ := ∅; posargs := [];
       spawn := fun _ c files =>
         match c with
         | Cmd ["coverage"; "report"; _; _] => (2, files)
         | _ => (0, files)
         end;
       undeletable := fun _ _ _ => ∅ |} {[ ".coverage" ]}
  = (FAILED,
     [ Spawn (Pip ["coverage"; "pytest-cov"]) {[ ".coverage" ]} 0;
       Spawn (Cmd coverage_report) {[ ".coverage" ]} 2 ]).
Proof. vm_compute. reflexivity. Qed.

Example system_without_anything :
  system (quiet_host ∅ []) {| fs := ∅; log := [] |}
  = (inl (SessionSkip "Credentials must be set via environment variable"),
     {| fs := ∅; log := [] |}).
Proof. vm_compute. reflexivity. Qed.

Example blacken_on_quiet_host :
  execute blacken (quiet_host ∅ ["ignored"]) ∅
  = (SUCCESS,
     [ Spawn (Pip ["black"]) ∅ 0;
       Spawn (Cmd ["black"; "google"; "tests"; "docs"]) ∅ 0 ]).
Proof. vm_compute. reflexivity. Qed.
